(** * SQL chatbot ([app.py]): a shallow embedding of the Streamlit script

    The script re-executes from top to bottom on every user interaction.
    One execution is modelled as a computation in a small state-and-exception
    monad.  The state holds what the script mutates or emits: the process
    environment ([os.environ]), the session log
    ([st.session_state.messages]) and the trace of calls made to the UI
    toolkit and to the other libraries.  The outcome of every library call
    (widgets, sqlite, the language model, the speech services) is read from a
    [world] record, so that every theorem quantifies over all behaviours of
    the libraries. *)

From Stdlib Require Import Ascii String ZArith Lia.
From stdpp Require Import base option list strings gmap.


(** ** Exceptions and results *)

(** The exception classes the script tells apart: the two classes named by
    the handlers of [get_voice_input], the class raised when the log is read
    before it exists, and every other subclass of [Exception]. *)
Inductive exn_class : Type :=
  | UnknownValueError
  | RequestError
  | AttributeError
  | OtherException.

(** An exception instance; [exn_text] is what [str(e)] / [f"{e}"] gives. *)
Record exn : Type := Exn { exn_cls : exn_class; exn_text : string }.

Inductive result (A : Type) : Type :=
  | Ok (a : A)
  | Raise (e : exn).
Arguments Ok {A} a.
Arguments Raise {A} e.

(** ** Data model *)

(** A turn of the session log: the dict [{"role": ..., "content": ...}]. *)
Record turn : Type := Turn { role : string; content : string }.

(** Calls that leave the script, in the order they are made. *)
Inductive event : Type :=
  (* page header, lines 12-34 *)
  | EvPageConfig | EvStyle
  | EvTitle (s : string)
  | EvMarkdown (s : string)
  | EvHeader (s : string)
  | EvTextInput (label : string)
  | EvFileUploader (label : string)
  (* status boxes *)
  | EvSuccess (s : string)
  | EvInfo (s : string)
  | EvWarning (s : string)
  | EvError (s : string)
  (* [with st.chat_message(role): st.markdown(content)] *)
  | EvChatMessage (r c : string)
  | EvChatInput (prompt : string)
  | EvButton (label : string)
  | EvDataframe (rows : string)
  (* speech recognition *)
  | EvImportSR | EvMicrophone | EvAdjustNoise | EvListen | EvRecognizeGoogle
  (* speech synthesis *)
  | EvImportTTS | EvTtsInit
  | EvTtsSay (text : string)
  | EvTtsRunAndWait
  (* database set-up, lines 82-98 *)
  | EvTempFile
  | EvConnect (path : string)
  | EvReadDecode
  | EvExecuteScript (script : string)
  | EvCommit | EvClose
  | EvFromUri (uri : string)
  | EvChatGroq
  | EvPrompt
  (* per-question pipeline *)
  | EvGetTableInfo
  | EvInvoke (question schema : string)
  | EvDbRun (query : string).

Record state : Type := State {
  environ : gmap string string;
  session_messages : option (list turn);
  trace : list event
}.

(** The log as a list; a session without the key has an empty log. *)
Definition messages_of (s : state) : list turn :=
  default [] (session_messages s).

(** What the libraries answer during one execution of the script. *)
Record world : Type := World {
  w_groq_api_key : string;
  w_uploaded_file : bool;
  w_tmpfile : result string;
  w_connect : string -> result unit;
  w_read_decode : result string;
  w_executescript : string -> result unit;
  w_commit : result unit;
  w_close : result unit;
  w_from_uri : string -> result unit;
  w_chat_groq : result unit;
  w_chat_input : option string;
  w_button : bool;
  w_import_sr : result unit;
  w_microphone : result unit;
  w_adjust : result unit;
  w_listen : result unit;
  w_recognize_google : result string;
  w_import_tts : result unit;
  w_tts_init : result unit;
  w_tts_say : string -> result unit;
  w_tts_run : result unit;
  w_get_table_info : result string;
  w_invoke : string -> string -> result string;
  w_db_run : string -> result string;
  w_dataframe : string -> result unit
}.

(** ** The monad *)

Definition M (A : Type) : Type := state -> result A * state.

Definition ret {A} (a : A) : M A := fun s => (Ok a, s).

Definition bind {A B} (m : M A) (k : A -> M B) : M B :=
  fun s => match m s with
           | (Ok a, s') => k a s'
           | (Raise e, s') => (Raise e, s')
           end.

Definition raise {A} (e : exn) : M A := fun s => (Raise e, s).

(** [try: m except Exception as e: h e].  The handler starts from the state
    reached when the exception was raised: mutations are not rolled back. *)
Definition try_except {A} (m : M A) (h : exn -> M A) : M A :=
  fun s => match m s with
           | (Ok a, s') => (Ok a, s')
           | (Raise e, s') => h e s'
           end.

Global Instance M_ret : MRet M := @ret.
Global Instance M_bind : MBind M := fun A B k m => bind m k.

Definition emit (ev : event) : M unit :=
  fun s => (Ok tt, State (environ s) (session_messages s) (trace s ++ [ev])).

(** A library call: recorded in the trace, then answered by the world. *)
Definition call {A} (ev : event) (r : result A) : M A :=
  emit ev;; (fun s => (r, s)) : M A.

Fixpoint for_each {A} (l : list A) (body : A -> M unit) : M unit :=
  match l with
  | [] => ret tt
  | x :: l' => body x;; for_each l' body
  end.

(** ** Python helpers *)

(** [os.getenv(key, default)]. *)
Definition getenv (env : gmap string string) (key dflt : string) : string :=
  default dflt (env !! key).

(** [os.environ[key] = value]. *)
Definition setenv (key value : string) : M unit :=
  fun s => (Ok tt, State (<[key := value]> (environ s)) (session_messages s) (trace s)).

(** Truth value of a string, and of a value that is a string or [None]. *)
Definition truthy (s : string) : bool := bool_decide (s ≠ "").

Definition truthy_opt (o : option string) : bool :=
  match o with
  | Some s => truthy s
  | None => false
  end.

(** The slice [l[start:]]: a negative start counts from the end, and both
    ends are clamped to the list. *)
Definition slice_from {A} (start : Z) (l : list A) : list A :=
  let n := Z.of_nat (length l) in
  let i := if (start <? 0)%Z then Z.max (start + n) 0 else Z.min start n in
  drop (Z.to_nat i) l.

Definition newline : string := String "010"%char "".

(** ** Session state *)

Definition no_messages : exn :=
  Exn AttributeError "st.session_state has no attribute messages".

(** [if "messages" not in st.session_state: st.session_state.messages = []] *)
Definition init_messages : M unit :=
  fun s => match session_messages s with
           | None => (Ok tt, State (environ s) (Some []) (trace s))
           | Some _ => (Ok tt, s)
           end.

(** Reading [st.session_state.messages]. *)
Definition get_messages : M (list turn) :=
  fun s => match session_messages s with
           | Some l => (Ok l, s)
           | None => (Raise no_messages, s)
           end.

(** [st.session_state.messages.append(t)]. *)
Definition append_message (t : turn) : M unit :=
  fun s => match session_messages s with
           | Some l => (Ok tt, State (environ s) (Some (l ++ [t])) (trace s))
           | None => (Raise no_messages, s)
           end.

(** ** The script *)

(** Line 37: [use_voice = os.getenv("USE_VOICE", "True") == "True"]. *)
Definition use_voice (env : gmap string string) : bool :=
  bool_decide (getenv env "USE_VOICE" "True" = "True").

(** Lines 40-60.  [uv] is the global [use_voice]. *)
Definition get_voice_input (w : world) (uv : bool) : M (option string) :=
  if uv then
    call EvImportSR (w_import_sr w);;
    call EvMicrophone (w_microphone w);;
    emit (EvInfo "🎙 Speak now...");;
    call EvAdjustNoise (w_adjust w);;
    call EvListen (w_listen w);;
    try_except
      (query ← call EvRecognizeGoogle (w_recognize_google w);
       emit (EvSuccess ("🗣 You said: " +:+ query));;
       mret (Some query))
      (fun e =>
         match exn_cls e with
         | UnknownValueError =>
             emit (EvWarning "⚠️ Could not understand the audio. Try again.");;
             mret None
         | RequestError =>
             emit (EvError "❌ Error with Google Speech Recognition API.");;
             mret None
         | _ => raise e
         end)
  else mret None.

(** Lines 63-70. *)
Definition speak_text (w : world) (uv : bool) (text : string) : M unit :=
  if uv then
    call EvImportTTS (w_import_tts w);;
    call EvTtsInit (w_tts_init w);;
    call (EvTtsSay text) (w_tts_say w text);;
    call EvTtsRunAndWait (w_tts_run w)
  else mret tt.

(** Lines 12-34: page configuration, header, sidebar and upload widget. *)
Definition page_header : M unit :=
  emit EvPageConfig;;
  emit EvStyle;;
  emit (EvTitle "SQL Chatbot with Chat Format & Voice Input");;
  emit (EvMarkdown "Upload your `.sql` file and query it with natural language.");;
  emit (EvHeader "LLM Configuration");;
  emit (EvTextInput "🔑 Groq API Key");;
  emit (EvFileUploader "📂 Upload your MySQL .sql file").

(** Lines 82-100: the temporary database, the model client and the chain.
    Returns the URI of the database. *)
Definition setup (w : world) : M string :=
  db_path ← call EvTempFile (w_tmpfile w);
  call (EvConnect db_path) (w_connect w db_path);;
  sql_script ← call EvReadDecode (w_read_decode w);
  call (EvExecuteScript sql_script) (w_executescript w sql_script);;
  call EvCommit (w_commit w);;
  call EvClose (w_close w);;
  let uri := "sqlite:///" +:+ db_path in
  call (EvFromUri uri) (w_from_uri w uri);;
  call EvChatGroq (w_chat_groq w);;
  emit EvPrompt;;
  emit (EvSuccess "✅ Database loaded and ready!");;
  mret uri.

(** Lines 103-106: [for msg in st.session_state.messages[-5:]]. *)
Definition render_history : M unit :=
  msgs ← get_messages;
  for_each (slice_from (-5) msgs)
    (fun msg => emit (EvChatMessage (role msg) (content msg))).

(** Line 111. *)
Definition chat_input (w : world) : M (option string) :=
  emit (EvChatInput "Ask a question about your data");;
  mret (w_chat_input w).

(** Lines 113-118: returns [user_question] as it is after the block. *)
Definition voice_column (w : world) (uv : bool) (user_question : option string)
    : M (option string) :=
  if uv then
    emit (EvButton "🎙 Speak");;
    if w_button w then
      voice_text ← get_voice_input w uv;
      if truthy_opt voice_text then mret voice_text else mret user_question
    else mret user_question
  else mret user_question.

(** Lines 108-118: the two input sources of a turn, typed then spoken. *)
Definition question_input (w : world) (uv : bool) : M (option string) :=
  user_question ← chat_input w;
  voice_column w uv user_question.

Definition response_message (query : string) : string :=
  "Here is your SQL query:" +:+ newline +:+ "```sql" +:+ newline
    +:+ query +:+ newline +:+ "```".

Definition error_message : string := " Ask more questions about your database.".

(** Lines 121-146: the body of [if user_question:]. *)
Definition per_question (w : world) (uv : bool) (user_question : string) : M unit :=
  append_message (Turn "user" user_question);;
  emit (EvChatMessage "user" user_question);;
  try_except
    (schema ← call EvGetTableInfo (w_get_table_info w);
     query ← call (EvInvoke user_question schema) (w_invoke w user_question schema);
     append_message (Turn "assistant" (response_message query));;
     emit (EvChatMessage "assistant" (response_message query));;
     result ← call (EvDbRun query) (w_db_run w query);
     call (EvDataframe result) (w_dataframe w result);;
     speak_text w uv ("Here is your SQL query: " +:+ query))
    (fun _ =>
       append_message (Turn "assistant" error_message);;
       emit (EvChatMessage "assistant" error_message)).

(** Line 120: [if user_question:]. *)
Definition handle_question (w : world) (uv : bool) (user_question : option string)
    : M unit :=
  match user_question with
  | Some q => if truthy q then per_question w uv q else mret tt
  | None => mret tt
  end.

(** Lines 81-149: the outer [try] and its handler. *)
Definition upload_block (w : world) (uv : bool) : M unit :=
  try_except
    (setup w;;
     render_history;;
     user_question ← question_input w uv;
     handle_question w uv user_question)
    (fun e => emit (EvError ("❌ Failed to process SQL file: " +:+ exn_text e))).

(** The script with the flag of line 37 already read. *)
Definition script (w : world) (uv : bool) : M unit :=
  page_header;;
  init_messages;;
  if truthy (w_groq_api_key w) then
    setenv "GROQ_API_KEY" (w_groq_api_key w);;
    if w_uploaded_file w then upload_block w uv else mret tt
  else
    emit (EvInfo "⬅ Upload a `.sql` file and enter your Groq API key to begin.").

(** One execution of the whole script. *)
Definition main (w : world) : M unit :=
  fun s => script w (use_voice (environ s)) s.

(** * Specification vocabulary *)

(** The event shown for a turn of the log. *)
Definition show_turn (msg : turn) : event :=
  EvChatMessage (role msg) (content msg).

(** [extends Pt Pe s s']: the log and the trace of [s] are kept in [s'] and
    extended, at the end, by turns that satisfy [Pt] and events that satisfy
    [Pe]; a log that exists in [s] still exists in [s'].
    [grows Pt Pe m]: [m] extends every state it starts from, whether it
    returns or raises. *)
Definition extends (Pt : turn -> Prop) (Pe : event -> Prop) (s s' : state) : Prop :=
  exists added evs,
    messages_of s' = messages_of s ++ added /\ Forall Pt added /\
    trace s' = trace s ++ evs /\ Forall Pe evs /\
    (session_messages s' = None -> session_messages s = None).

Definition grows (Pt : turn -> Prop) (Pe : event -> Prop) {A} (m : M A) : Prop :=
  forall s, extends Pt Pe s (m s).2.

(** [m] raises, whatever the state it starts from. *)
Definition fails {A} (m : M A) : Prop :=
  forall s, exists e, (m s).1 = Raise e.

(** A turn as the data model has it: a role among user and assistant (the
    content is text by its type). *)
Definition well_formed (t : turn) : Prop :=
  role t = "user" \/ role t = "assistant".

(** Events of the voice feature: its button, the microphone and the
    recognition service, the speech synthesis. *)
Definition voice_event (ev : event) : bool :=
  match ev with
  | EvButton _
  | EvImportSR | EvMicrophone | EvAdjustNoise | EvListen | EvRecognizeGoogle
  | EvImportTTS | EvTtsInit | EvTtsSay _ | EvTtsRunAndWait => true
  | _ => false
  end.

(** Events of the question pipeline: the question widgets, schema
    introspection, translation, execution and their display. *)
Definition pipeline_event (ev : event) : bool :=
  match ev with
  | EvChatInput _ | EvButton _ | EvChatMessage _ _
  | EvGetTableInfo | EvInvoke _ _ | EvDbRun _ | EvDataframe _ => true
  | _ => false
  end.

(** Where the translation or the execution of a question fails; the index
    is the generated statement, when the failure comes after generation. *)
Inductive pipeline_failure (w : world) (q : string) : option string -> Prop :=
  | schema_fails e :
      w_get_table_info w = Raise e ->
      pipeline_failure w q None
  | generation_fails schema e :
      w_get_table_info w = Ok schema ->
      w_invoke w q schema = Raise e ->
      pipeline_failure w q None
  | execution_fails schema query e :
      w_get_table_info w = Ok schema ->
      w_invoke w q schema = Ok query ->
      w_db_run w query = Raise e ->
      pipeline_failure w q (Some query).

(** The events of lines 12-34, emitted by every execution. *)
Definition header_events : list event :=
  [EvPageConfig; EvStyle;
   EvTitle "SQL Chatbot with Chat Format & Voice Input";
   EvMarkdown "Upload your `.sql` file and query it with natural language.";
   EvHeader "LLM Configuration";
   EvTextInput "🔑 Groq API Key";
   EvFileUploader "📂 Upload your MySQL .sql file"].

(** The state in which the upload block starts: header shown, log
    initialised, credential installed. *)
Definition ready (w : world) (s : state) : state :=
  State (<["GROQ_API_KEY" := w_groq_api_key w]> (environ s))
        (Some (messages_of s)) (trace s ++ header_events).

(** The report of the outer handler, [f"... {e}"]. *)
Definition setup_report (e : exn) : event :=
  EvError ("❌ Failed to process SQL file: " +:+ exn_text e).

(** The microphone works: the recording reaches the recognition service. *)
Definition mic_ready (w : world) : Prop :=
  w_import_sr w = Ok tt /\ w_microphone w = Ok tt /\
  w_adjust w = Ok tt /\ w_listen w = Ok tt.

(** The calls of [get_voice_input] up to and including the recognition. *)
Definition listen_events : list event :=
  [EvImportSR; EvMicrophone; EvInfo "🎙 Speak now..."; EvAdjustNoise;
   EvListen; EvRecognizeGoogle].


(** Erasing what an error says: its class and its text. *)
Definition anonymous : exn := Exn OtherException "".

Definition forget {A} (r : result A) : result A :=
  match r with
  | Ok a => Ok a
  | Raise _ => Raise anonymous
  end.

(** The world with every error of the question pipeline made anonymous. *)
Definition forget_errors (w : world) : world :=
  World (w_groq_api_key w) (w_uploaded_file w) (w_tmpfile w) (w_connect w)
    (w_read_decode w) (w_executescript w) (w_commit w) (w_close w)
    (w_from_uri w) (w_chat_groq w) (w_chat_input w) (w_button w)
    (w_import_sr w) (w_microphone w) (w_adjust w) (w_listen w)
    (w_recognize_google w)
    (forget (w_import_tts w)) (forget (w_tts_init w))
    (fun text => forget (w_tts_say w text)) (forget (w_tts_run w))
    (forget (w_get_table_info w))
    (fun q schema => forget (w_invoke w q schema))
    (fun query => forget (w_db_run w query))
    (fun rows => forget (w_dataframe w rows)).

Global Instance turn_eq_dec : EqDecision turn.
Proof. solve_decision. Defined.

(** How many of the turns [l] are the fallback turn of the handler. *)
Definition fallback_turns (l : list turn) : nat :=
  length (filter (fun t => t = Turn "assistant" error_message) l).

(** ** Sample worlds *)

(** Every library call succeeds; the question is typed, the voice button is
    not clicked. *)
Definition w_fine : world :=
  World "gsk_key" true (Ok "/tmp/tmpa1.db") (fun _ => Ok tt)
    (Ok "CREATE TABLE users(id, name);") (fun _ => Ok tt) (Ok tt) (Ok tt)
    (fun _ => Ok tt) (Ok tt)
    (Some "how many users are there?") false
    (Ok tt) (Ok tt) (Ok tt) (Ok tt) (Ok "list the users")
    (Ok tt) (Ok tt) (fun _ => Ok tt) (Ok tt)
    (Ok "CREATE TABLE users(id, name)")
    (fun _ _ => Ok "SELECT COUNT(*) FROM users")
    (fun _ => Ok "[(1,)]")
    (fun _ => Ok tt).

(** As [w_fine], with the voice button clicked. *)
Definition w_spoken : world :=
  World "gsk_key" true (Ok "/tmp/tmpa1.db") (fun _ => Ok tt)
    (Ok "CREATE TABLE users(id, name);") (fun _ => Ok tt) (Ok tt) (Ok tt)
    (fun _ => Ok tt) (Ok tt)
    (Some "how many users are there?") true
    (Ok tt) (Ok tt) (Ok tt) (Ok tt) (Ok "list the users")
    (Ok tt) (Ok tt) (fun _ => Ok tt) (Ok tt)
    (Ok "CREATE TABLE users(id, name)")
    (fun _ _ => Ok "SELECT COUNT(*) FROM users")
    (fun _ => Ok "[(1,)]")
    (fun _ => Ok tt).

(** The uploaded script is rejected by sqlite. *)
Definition w_bad_script : world :=
  World "gsk_key" true (Ok "/tmp/tmpa1.db") (fun _ => Ok tt)
    (Ok "CREATE TABLE users(id, name;")
    (fun _ => Raise (Exn OtherException "incomplete input")) (Ok tt) (Ok tt)
    (fun _ => Ok tt) (Ok tt)
    (Some "how many users are there?") false
    (Ok tt) (Ok tt) (Ok tt) (Ok tt) (Ok "list the users")
    (Ok tt) (Ok tt) (fun _ => Ok tt) (Ok tt)
    (Ok "CREATE TABLE users(id, name)")
    (fun _ _ => Ok "SELECT COUNT(*) FROM users")
    (fun _ => Ok "[(1,)]")
    (fun _ => Ok tt).

(** The generated statement names a table that does not exist. *)
Definition w_bad_query : world :=
  World "gsk_key" true (Ok "/tmp/tmpa1.db") (fun _ => Ok tt)
    (Ok "CREATE TABLE users(id, name);") (fun _ => Ok tt) (Ok tt) (Ok tt)
    (fun _ => Ok tt) (Ok tt)
    (Some "how many users are there?") false
    (Ok tt) (Ok tt) (Ok tt) (Ok tt) (Ok "list the users")
    (Ok tt) (Ok tt) (fun _ => Ok tt) (Ok tt)
    (Ok "CREATE TABLE users(id, name)")
    (fun _ _ => Ok "SELECT COUNT(*) FROM user")
    (fun _ => Raise (Exn OtherException "no such table: user"))
    (fun _ => Ok tt).

(** The query runs, the speech engine cannot start. *)
Definition w_mute : world :=
  World "gsk_key" true (Ok "/tmp/tmpa1.db") (fun _ => Ok tt)
    (Ok "CREATE TABLE users(id, name);") (fun _ => Ok tt) (Ok tt) (Ok tt)
    (fun _ => Ok tt) (Ok tt)
    (Some "how many users are there?") false
    (Ok tt) (Ok tt) (Ok tt) (Ok tt) (Ok "list the users")
    (Ok tt) (Raise (Exn OtherException "eSpeak is not installed")) (fun _ => Ok tt) (Ok tt)
    (Ok "CREATE TABLE users(id, name)")
    (fun _ _ => Ok "SELECT COUNT(*) FROM user")
    (fun _ => Ok "[(1,)]")
    (fun _ => Ok tt).

(** The button is clicked and the audio cannot be understood. *)
Definition w_unheard : world :=
  World "gsk_key" true (Ok "/tmp/tmpa1.db") (fun _ => Ok tt)
    (Ok "CREATE TABLE users(id, name);") (fun _ => Ok tt) (Ok tt) (Ok tt)
    (fun _ => Ok tt) (Ok tt)
    (Some "how many users are there?") true
    (Ok tt) (Ok tt) (Ok tt) (Ok tt) (Raise (Exn UnknownValueError ""))
    (Ok tt) (Ok tt) (fun _ => Ok tt) (Ok tt)
    (Ok "CREATE TABLE users(id, name)")
    (fun _ _ => Ok "SELECT COUNT(*) FROM users")
    (fun _ => Ok "[(1,)]")
    (fun _ => Ok tt).

(** The button is clicked and the recognition service cannot be reached. *)
Definition w_offline : world :=
  World "gsk_key" true (Ok "/tmp/tmpa1.db") (fun _ => Ok tt)
    (Ok "CREATE TABLE users(id, name);") (fun _ => Ok tt) (Ok tt) (Ok tt)
    (fun _ => Ok tt) (Ok tt)
    None true
    (Ok tt) (Ok tt) (Ok tt) (Ok tt)
    (Raise (Exn RequestError "recognition connection failed"))
    (Ok tt) (Ok tt) (fun _ => Ok tt) (Ok tt)
    (Ok "CREATE TABLE users(id, name)")
    (fun _ _ => Ok "SELECT COUNT(*) FROM users")
    (fun _ => Ok "[(1,)]")
    (fun _ => Ok tt).

(** A log of seven turns. *)
Definition seven_turns : list turn :=
  map (Turn "user") ["1"; "2"; "3"; "4"; "5"; "6"; "7"].

(** A session whose log exists and is empty. *)
Definition s_empty : state := State ∅ (Some []) [].

(** A fresh session, and a session with the voice flag switched off. *)
Definition s_fresh : state := State ∅ None [].

Definition s_voice_off : state := State {[ "USE_VOICE" := "False" ]} None [].

(** ** Vocabulary for whole runs and sessions *)

(** Every step of the set-up succeeds, on the temporary file [db_path] and
    the decoded upload [sql_script]. *)
Definition setup_ok (w : world) (db_path sql_script : string) : Prop :=
  w_tmpfile w = Ok db_path /\
  w_connect w db_path = Ok tt /\
  w_read_decode w = Ok sql_script /\
  w_executescript w sql_script = Ok tt /\
  w_commit w = Ok tt /\
  w_close w = Ok tt /\
  w_from_uri w ("sqlite:///" +:+ db_path) = Ok tt /\
  w_chat_groq w = Ok tt.

(** The calls of a successful set-up, in order. *)
Definition setup_events (db_path sql_script : string) : list event :=
  [EvTempFile; EvConnect db_path; EvReadDecode; EvExecuteScript sql_script;
   EvCommit; EvClose; EvFromUri ("sqlite:///" +:+ db_path); EvChatGroq;
   EvPrompt; EvSuccess "✅ Database loaded and ready!"].

(** Every step of the speech synthesis succeeds on [text]. *)
Definition tts_ok (w : world) (text : string) : Prop :=
  w_import_tts w = Ok tt /\ w_tts_init w = Ok tt /\
  w_tts_say w text = Ok tt /\ w_tts_run w = Ok tt.

(** The calls of a successful [speak_text]. *)
Definition tts_events (text : string) : list event :=
  [EvImportTTS; EvTtsInit; EvTtsSay text; EvTtsRunAndWait].

(** Calls to the database and to the model made for a question, and the
    display of the rows. *)
Definition backend_call (ev : event) : bool :=
  match ev with
  | EvGetTableInfo | EvInvoke _ _ | EvDbRun _ | EvDataframe _ => true
  | _ => false
  end.

(** Calls that touch the database once a statement exists, and the speech
    that follows them. *)
Definition execution_event (ev : event) : bool :=
  match ev with
  | EvDbRun _ | EvDataframe _
  | EvImportTTS | EvTtsInit | EvTtsSay _ | EvTtsRunAndWait => true
  | _ => false
  end.

(** Calls of the speech recognition: the library, the microphone, the
    recognition service. *)
Definition listening_event (ev : event) : bool :=
  match ev with
  | EvImportSR | EvMicrophone | EvAdjustNoise | EvListen | EvRecognizeGoogle => true
  | _ => false
  end.

Definition is_chat_message (ev : event) : bool :=
  match ev with
  | EvChatMessage _ _ => true
  | _ => false
  end.

(** The chat bubbles among the events [evs], in order. *)
Definition chat_messages (evs : list event) : list event :=
  List.filter is_chat_message evs.

(** The turns that one question can add after the user turn: the fallback
    alone, the statement alone, or the statement and the fallback. *)
Definition answer_turns (tail : list turn) : Prop :=
  tail = [Turn "assistant" error_message] \/
  exists query,
    tail = [Turn "assistant" (response_message query)] \/
    tail = [Turn "assistant" (response_message query);
            Turn "assistant" error_message].

(** The result of [m] (the value returned or the exception raised) does not
    depend on the state it starts from. *)
Definition state_blind {A} (m : M A) : Prop :=
  forall s s', (m s).1 = (m s').1.

(** [m] leaves the observation [f] of the state as it finds it. *)
Definition preserves {X A} (f : state -> X) (m : M A) : Prop :=
  forall s, f (m s).2 = f s.

(** A session: the script executed once per interaction, each execution
    starting from the state the previous one left. *)
Definition session (ws : list world) (s : state) : state :=
  foldl (fun st w => (main w st).2) s ws.

(** No credential has been entered. *)
Definition w_no_key : world :=
  World "" true (Ok "/tmp/tmpa1.db") (fun _ => Ok tt)
    (Ok "CREATE TABLE users(id, name);") (fun _ => Ok tt) (Ok tt) (Ok tt)
    (fun _ => Ok tt) (Ok tt)
    (Some "how many users are there?") false
    (Ok tt) (Ok tt) (Ok tt) (Ok tt) (Ok "list the users")
    (Ok tt) (Ok tt) (fun _ => Ok tt) (Ok tt)
    (Ok "CREATE TABLE users(id, name)")
    (fun _ _ => Ok "SELECT COUNT(*) FROM users")
    (fun _ => Ok "[(1,)]")
    (fun _ => Ok tt).


(** The model cannot be reached. *)
Definition w_no_model : world :=
  World "gsk_key" true (Ok "/tmp/tmpa1.db") (fun _ => Ok tt)
    (Ok "CREATE TABLE users(id, name);") (fun _ => Ok tt) (Ok tt) (Ok tt)
    (fun _ => Ok tt) (Ok tt)
    (Some "how many users are there?") false
    (Ok tt) (Ok tt) (Ok tt) (Ok tt) (Ok "list the users")
    (Ok tt) (Ok tt) (fun _ => Ok tt) (Ok tt)
    (Ok "CREATE TABLE users(id, name)")
    (fun _ _ => Raise (Exn OtherException "Connection error."))
    (fun _ => Ok "[(1,)]")
    (fun _ => Ok tt).

(** A question is typed, the voice button is clicked, and the machine has
    no microphone. *)
Definition w_no_mic : world :=
  World "gsk_key" true (Ok "/tmp/tmpa1.db") (fun _ => Ok tt)
    (Ok "CREATE TABLE users(id, name);") (fun _ => Ok tt) (Ok tt) (Ok tt)
    (fun _ => Ok tt) (Ok tt)
    (Some "how many users are there?") true
    (Ok tt) (Raise (Exn OtherException "No Default Input Device Available"))
    (Ok tt) (Ok tt) (Ok "list the users")
    (Ok tt) (Ok tt) (fun _ => Ok tt) (Ok tt)
    (Ok "CREATE TABLE users(id, name)")
    (fun _ _ => Ok "SELECT COUNT(*) FROM users")
    (fun _ => Ok "[(1,)]")
    (fun _ => Ok tt).

(** Nothing is typed and the button is not clicked. *)
Definition w_idle : world :=
  World "gsk_key" true (Ok "/tmp/tmpa1.db") (fun _ => Ok tt)
    (Ok "CREATE TABLE users(id, name);") (fun _ => Ok tt) (Ok tt) (Ok tt)
    (fun _ => Ok tt) (Ok tt)
    None false
    (Ok tt) (Ok tt) (Ok tt) (Ok tt) (Ok "list the users")
    (Ok tt) (Ok tt) (fun _ => Ok tt) (Ok tt)
    (Ok "CREATE TABLE users(id, name)")
    (fun _ _ => Ok "SELECT COUNT(*) FROM users")
    (fun _ => Ok "[(1,)]")
    (fun _ => Ok tt).

(** The statement runs, and the display of its rows raises. *)
Definition w_no_display : world :=
  World "gsk_key" true (Ok "/tmp/tmpa1.db") (fun _ => Ok tt)
    (Ok "CREATE TABLE users(id, name);") (fun _ => Ok tt) (Ok tt) (Ok tt)
    (fun _ => Ok tt) (Ok tt)
    (Some "how many users are there?") false
    (Ok tt) (Ok tt) (Ok tt) (Ok tt) (Ok "list the users")
    (Ok tt) (Ok tt) (fun _ => Ok tt) (Ok tt)
    (Ok "CREATE TABLE users(id, name)")
    (fun _ _ => Ok "SELECT COUNT(*) FROM users")
    (fun _ => Ok "[(1,)]")
    (fun _ => Raise (Exn OtherException "Unable to convert object of type str to pandas.DataFrame")).

(** A session that already holds a credential from an earlier run. *)
Definition s_keyed : state :=
  State {[ "GROQ_API_KEY" := "gsk_old" ]} (Some seven_turns) [].

(** * Reasoning principles *)

(** ** Growth of the log and of the trace *)
Section Grows.
Variable Pt : turn -> Prop.
Variable Pe : event -> Prop.

Lemma extends_refl (s s' : state) :
  session_messages s' = session_messages s -> trace s' = trace s ->
  extends Pt Pe s s'.
Proof.
  intros Hm Ht. exists [], []. unfold messages_of.
  rewrite Hm, Ht, !app_nil_r. repeat split; auto.
Qed.

Lemma extends_trans (s s1 s2 : state) :
  extends Pt Pe s s1 -> extends Pt Pe s1 s2 -> extends Pt Pe s s2.
Proof.
  intros (a1 & e1 & Hm1 & Ha1 & Ht1 & He1 & Hn1)
         (a2 & e2 & Hm2 & Ha2 & Ht2 & He2 & Hn2).
  exists (a1 ++ a2), (e1 ++ e2).
  rewrite Hm2, Hm1, Ht2, Ht1, <- !app_assoc.
  repeat split; auto; apply Forall_app; auto.
Qed.

Lemma grows_same {A} (m : M A) :
  (forall s, session_messages (m s).2 = session_messages s /\
             trace (m s).2 = trace s) ->
  grows Pt Pe m.
Proof. intros H s. destruct (H s). apply extends_refl; assumption. Qed.

Lemma grows_mret {A} (a : A) : grows Pt Pe (mret a).
Proof. apply grows_same. intros s. split; reflexivity. Qed.

Lemma grows_raise {A} (e : exn) : grows Pt Pe (@raise A e).
Proof. apply grows_same. intros s. split; reflexivity. Qed.

Lemma grows_bind {A B} (m : M A) (k : A -> M B) :
  grows Pt Pe m -> (forall a, grows Pt Pe (k a)) -> grows Pt Pe (m ≫= k).
Proof.
  intros Hm Hk s. specialize (Hm s).
  unfold mbind, M_bind, bind. destruct (m s) as [[a|e] s1]; simpl in Hm.
  - eapply extends_trans; [exact Hm | apply Hk].
  - exact Hm.
Qed.

Lemma grows_try_except {A} (m : M A) (h : exn -> M A) :
  grows Pt Pe m -> (forall e, grows Pt Pe (h e)) -> grows Pt Pe (try_except m h).
Proof.
  intros Hm Hh s. specialize (Hm s).
  unfold try_except. destruct (m s) as [[a|e] s1]; simpl in Hm.
  - exact Hm.
  - eapply extends_trans; [exact Hm | apply Hh].
Qed.

Lemma grows_emit (ev : event) : Pe ev -> grows Pt Pe (emit ev).
Proof.
  intros H s. exists [], [ev]. simpl. rewrite app_nil_r.
  repeat split; auto.
Qed.

Lemma grows_call {A} (ev : event) (r : result A) : Pe ev -> grows Pt Pe (call ev r).
Proof.
  intros H s. exists [], [ev]. unfold call. simpl. rewrite app_nil_r.
  repeat split; auto.
Qed.

Lemma grows_append_message (t : turn) : Pt t -> grows Pt Pe (append_message t).
Proof.
  intros H s. unfold extends, append_message, messages_of.
  destruct (session_messages s) as [l|] eqn:E; simpl; rewrite ?E; simpl.
  - exists [t], []. rewrite app_nil_r. repeat split; auto. discriminate.
  - exists [], []. rewrite app_nil_r. repeat split; auto.
Qed.

Lemma grows_init_messages : grows Pt Pe init_messages.
Proof.
  intros s. unfold extends, init_messages, messages_of.
  destruct (session_messages s) as [l|] eqn:E; simpl; rewrite ?E; simpl.
  - exists [], []. rewrite !app_nil_r. repeat split; auto.
  - exists [], []. rewrite ?app_nil_r. repeat split; auto.
Qed.

Lemma grows_get_messages : grows Pt Pe get_messages.
Proof.
  apply grows_same. intros s. unfold get_messages.
  destruct (session_messages s) eqn:E; simpl; rewrite ?E; split; reflexivity.
Qed.

Lemma grows_setenv (k v : string) : grows Pt Pe (setenv k v).
Proof. apply grows_same. intros s. split; reflexivity. Qed.

Lemma grows_for_each {A} (l : list A) (body : A -> M unit) :
  (forall x, grows Pt Pe (body x)) -> grows Pt Pe (for_each l body).
Proof.
  intros H. induction l as [|x l IH]; simpl.
  - apply grows_mret.
  - apply grows_bind; auto.
Qed.
End Grows.

Create HintDb grows.
#[export] Hint Resolve grows_mret grows_raise grows_bind grows_try_except
  grows_emit grows_call grows_append_message grows_init_messages
  grows_get_messages grows_setenv grows_for_each : grows.

(** Splits the conditionals of the script, then composes the rules. *)
Ltac grows_auto :=
  repeat match goal with
         | |- grows _ _ (if ?b then _ else _) => destruct b
         | |- grows _ _ (match ?x with _ => _ end) => destruct x
         | |- grows _ _ (_ ≫= _) => apply grows_bind; [|intros]
         | |- grows _ _ (try_except _ _) => apply grows_try_except; [|intros]
         | |- grows _ _ (for_each _ _) => apply grows_for_each; intros
         | |- _ => solve [auto with grows]
         end.

(** ** Equations for the loop and the slice *)

Lemma for_each_emit {A} (f : A -> event) (l : list A) (s : state) :
  for_each l (fun x => emit (f x)) s
  = (Ok tt, State (environ s) (session_messages s) (trace s ++ map f l)).
Proof.
  revert s. induction l as [|x l IH]; intros s; simpl.
  - rewrite app_nil_r. destruct s; reflexivity.
  - unfold mbind, M_bind, bind, emit at 1. rewrite IH. simpl.
    rewrite <- app_assoc. reflexivity.
Qed.

Lemma slice_from_last {A} (k : nat) (l : list A) :
  (0 < k)%nat ->
  slice_from (- Z.of_nat k) l = drop (length l - min (length l) k) l.
Proof.
  intros Hk. unfold slice_from.
  destruct (Z.ltb_spec (- Z.of_nat k) 0) as [_|H]; [|lia].
  f_equal. lia.
Qed.

(** * The claims *)

(** A run in which everything succeeds: the typed question and the message
    holding the generated statement are logged, the result is displayed and
    the statement is spoken. *)
Example happy_path :
  main w_fine s_fresh
  = (Ok tt,
     State {[ "GROQ_API_KEY" := "gsk_key" ]}
       (Some [Turn "user" "how many users are there?";
              Turn "assistant" (response_message "SELECT COUNT(*) FROM users")])
       (header_events ++
        [EvTempFile; EvConnect "/tmp/tmpa1.db"; EvReadDecode;
         EvExecuteScript "CREATE TABLE users(id, name);"; EvCommit; EvClose;
         EvFromUri "sqlite:////tmp/tmpa1.db"; EvChatGroq; EvPrompt;
         EvSuccess "✅ Database loaded and ready!";
         EvChatInput "Ask a question about your data";
         EvButton "🎙 Speak";
         EvChatMessage "user" "how many users are there?";
         EvGetTableInfo;
         EvInvoke "how many users are there?" "CREATE TABLE users(id, name)";
         EvChatMessage "assistant" (response_message "SELECT COUNT(*) FROM users");
         EvDbRun "SELECT COUNT(*) FROM users";
         EvDataframe "[(1,)]";
         EvImportTTS; EvTtsInit;
         EvTtsSay "Here is your SQL query: SELECT COUNT(*) FROM users";
         EvTtsRunAndWait])).
Proof. vm_compute. reflexivity. Qed.

(** ** The voice flag *)

(** C4, as the code has it. The flag is read from the environment variable
    [USE_VOICE]: when the variable is unset voice is active; for every value
    of the variable other than the sentinel, voice is disabled; the sentinel
    is the string [True], capitalised and compared case-sensitively, and
    keeps voice active. *)
Theorem C4_use_voice_flag (env : gmap string string) :
  (env !! "USE_VOICE" = None -> use_voice env = true) /\
  (forall v, env !! "USE_VOICE" = Some v -> v <> "True" -> use_voice env = false) /\
  (env !! "USE_VOICE" = Some "True" -> use_voice env = true).
Proof.
  unfold use_voice, getenv. repeat split.
  - intros ->. reflexivity.
  - intros v -> Hv. simpl. apply bool_decide_eq_false. exact Hv.
  - intros ->. reflexivity.
Qed.

Lemma C4_use_voice_flag_witness :
  use_voice ∅ = true /\
  use_voice {[ "USE_VOICE" := "False" ]} = false /\
  use_voice {[ "USE_VOICE" := "True" ]} = true.
Proof.
  split; [|split].
  - apply (proj1 (C4_use_voice_flag ∅)). reflexivity.
  - apply (proj1 (proj2 (C4_use_voice_flag {[ "USE_VOICE" := "False" ]})) "False").
    + reflexivity.
    + discriminate.
  - apply (proj2 (proj2 (C4_use_voice_flag {[ "USE_VOICE" := "True" ]}))).
    reflexivity.
Defined.

(** C4, as stated, fails: with the sentinel read as the text "true", the
    value [True] is another value of the variable, and it leaves voice
    active; the lower-case text itself disables voice. *)
Lemma C4_counterexample :
  "True" <> "true" /\
  use_voice {[ "USE_VOICE" := "True" ]} = true /\
  use_voice {[ "USE_VOICE" := "true" ]} = false.
Proof. split; [discriminate | split; reflexivity]. Qed.

(** ** Rendering the history *)

(** C2. On a log of [N] turns the rendering loop shows exactly the last
    [min N 5] turns, in the order of the log, and leaves the log as it is:
    all [N] turns stay stored, none deleted or reordered. *)
Theorem C2_render_last_five (s : state) (log : list turn) :
  session_messages s = Some log ->
  let N := length log in
  let shown := drop (N - min N 5) log in
  render_history s
    = (Ok tt, State (environ s) (Some log) (trace s ++ map show_turn shown)) /\
  length shown = min N 5 /\
  log = take (N - min N 5) log ++ shown /\
  (forall i, (i < min N 5)%nat -> shown !! i = log !! (N - min N 5 + i)%nat).
Proof.
  intros Hlog N shown. repeat split.
  - unfold render_history, mbind, M_bind, bind, get_messages. rewrite Hlog.
    rewrite (slice_from_last 5) by lia.
    rewrite (for_each_emit show_turn). rewrite Hlog. reflexivity.
  - unfold shown. rewrite length_drop. fold N. lia.
  - symmetry. apply take_drop.
  - intros i _. unfold shown. apply lookup_drop.
Qed.

Lemma C2_render_last_five_witness :
  (render_history (State ∅ (Some seven_turns) [])).1 = Ok tt /\
  trace (render_history (State ∅ (Some seven_turns) [])).2
    = map (EvChatMessage "user") ["3"; "4"; "5"; "6"; "7"] /\
  session_messages (render_history (State ∅ (Some seven_turns) [])).2
    = Some seven_turns.
Proof.
  destruct (C2_render_last_five (State ∅ (Some seven_turns) []) seven_turns eq_refl)
    as (H & _).
  rewrite H. repeat split.
Defined.

(** ** The session log *)

Lemma grows_speak_text Pt (Pe : event -> Prop) w uv text :
  (forall ev, voice_event ev = true -> Pe ev) ->
  grows Pt Pe (speak_text w uv text).
Proof. intros H. unfold speak_text. grows_auto. Qed.

Lemma grows_get_voice_input Pt (Pe : event -> Prop) w uv :
  (forall ev, Pe ev) ->
  grows Pt Pe (get_voice_input w uv).
Proof. intros H. unfold get_voice_input. grows_auto. Qed.

Lemma grows_upload_block (w : world) (uv : bool) :
  grows well_formed (fun _ => True) (upload_block w uv).
Proof.
  unfold upload_block, setup, render_history, question_input, chat_input,
    voice_column, handle_question, per_question.
  cbv zeta.
  pose proof (grows_speak_text well_formed (fun _ => True) w uv) as Hs.
  pose proof (grows_get_voice_input well_formed (fun _ => True) w uv) as Hv.
  grows_auto; try (apply grows_append_message; unfold well_formed; simpl; auto).
Qed.

Lemma grows_script (w : world) (uv : bool) :
  grows well_formed (fun _ => True) (script w uv).
Proof.
  pose proof (grows_upload_block w uv) as Hu.
  unfold script, page_header. grows_auto.
Qed.

(** ** Running the script up to the upload block *)

Lemma script_ready (w : world) (uv : bool) (s : state) :
  truthy (w_groq_api_key w) = true ->
  w_uploaded_file w = true ->
  script w uv s = upload_block w uv (ready w s).
Proof.
  intros Hkey Hfile. destruct s as [env [l|] tr];
    cbv beta iota zeta delta [script page_header mbind M_bind bind emit
      init_messages setenv environ session_messages trace];
    rewrite Hkey, Hfile; unfold ready, messages_of, header_events; simpl;
    rewrite <- !app_assoc; reflexivity.
Qed.

Lemma extends_ready Pt (Pe : event -> Prop) (w : world) (s : state) :
  Forall Pe header_events -> extends Pt Pe s (ready w s).
Proof.
  intros H. exists [], header_events. unfold ready, messages_of. simpl.
  rewrite app_nil_r. repeat split; auto. discriminate.
Qed.

(** After the script the log exists, whether it did before or not. *)
Lemma main_log_exists (w : world) (s : state) :
  session_messages (main w s).2 <> None.
Proof.
  unfold main. set (uv := use_voice (environ s)).
  destruct (truthy (w_groq_api_key w)) eqn:Hkey;
    [destruct (w_uploaded_file w) eqn:Hfile|].
  - rewrite script_ready by assumption.
    destruct (grows_upload_block w uv (ready w s)) as (_ & _ & _ & _ & _ & _ & Hn).
    intros Hnone. apply Hn in Hnone. discriminate.
  - destruct s as [env [l|] tr];
      cbv beta iota zeta delta [script page_header mbind M_bind bind emit
        init_messages setenv environ session_messages trace];
      rewrite Hkey, Hfile; discriminate.
  - destruct s as [env [l|] tr];
      cbv beta iota zeta delta [script page_header mbind M_bind bind emit
        init_messages setenv environ session_messages trace];
      rewrite Hkey; discriminate.
Qed.

(** C3. The log is append-only: one execution of the script, whatever the
    libraries answer, leaves every turn it found in place, in order, and only
    adds turns at the end; every turn added has the role user or the role
    assistant, and a text for content. *)
Theorem C3_log_append_only (w : world) (s : state) :
  exists added : list turn,
    session_messages (main w s).2 = Some (messages_of s ++ added) /\
    Forall well_formed added.
Proof.
  pose proof (main_log_exists w s) as Hex. unfold main in *.
  destruct (grows_script w (use_voice (environ s)) s) as (added & evs & H & Hwf & _).
  exists added. split; [|assumption].
  unfold messages_of at 1 in H.
  destruct (session_messages _) as [l|]; [|congruence].
  simpl in H. congruence.
Qed.

(** ** The voice feature switched off *)

Lemma grows_script_voice_off (w : world) :
  grows well_formed (fun ev => voice_event ev = false) (script w false).
Proof.
  unfold script, page_header, upload_block, setup, render_history, question_input, chat_input,
    voice_column, handle_question, per_question, speak_text.
  cbv beta iota zeta.
  grows_auto; try (apply grows_append_message; unfold well_formed; simpl; auto).
Qed.

(** C5. With the voice flag off: [get_voice_input] returns [None] at once,
    with no call made (the state, trace included, is as before);
    [speak_text] returns with no call made; the voice column leaves the
    question as typed and renders no button; and a whole execution of the
    script makes no call of the voice feature: no button, no microphone, no
    recognition, no speech synthesis. *)
Theorem C5_voice_off (w : world) (s : state) (text : string) (typed : option string) :
  use_voice (environ s) = false ->
  let uv := use_voice (environ s) in
  get_voice_input w uv s = (Ok None, s) /\
  speak_text w uv text s = (Ok tt, s) /\
  voice_column w uv typed s = (Ok typed, s) /\
  exists evs, trace (main w s).2 = trace s ++ evs /\
              Forall (fun ev => voice_event ev = false) evs.
Proof.
  intros Hoff uv. subst uv. unfold main. rewrite Hoff.
  repeat split.
  destruct (grows_script_voice_off w s) as (_ & evs & _ & _ & Ht & He & _).
  exists evs. split; assumption.
Qed.

Lemma C5_voice_off_witness :
  get_voice_input w_spoken false s_voice_off = (Ok None, s_voice_off) /\
  speak_text w_spoken false "Here is your SQL query: SELECT 1" s_voice_off
    = (Ok tt, s_voice_off) /\
  voice_column w_spoken false (Some "typed") s_voice_off
    = (Ok (Some "typed"), s_voice_off) /\
  exists evs, trace (main w_spoken s_voice_off).2 = trace s_voice_off ++ evs /\
              Forall (fun ev => voice_event ev = false) evs.
Proof.
  exact (C5_voice_off w_spoken s_voice_off "Here is your SQL query: SELECT 1"
           (Some "typed") eq_refl).
Defined.

(** ** Set-up failures *)

Lemma setup_result_indep (w : world) (s s' : state) :
  (setup w s).1 = (setup w s').1.
Proof.
  cbv beta iota zeta delta [setup call emit mbind M_bind bind mret M_ret ret fst].
  repeat match goal with
         | |- context [match ?r with Ok _ => _ | Raise _ => _ end] =>
             destruct r; try reflexivity
         end.
Qed.

Lemma grows_setup (w : world) :
  grows (fun _ => False) (fun ev => pipeline_event ev = false) (setup w).
Proof. unfold setup. cbv zeta. grows_auto. Qed.

Lemma upload_block_setup_fails (w : world) (uv : bool) (s : state) (e : exn) :
  (setup w s).1 = Raise e ->
  upload_block w uv s = emit (setup_report e) (setup w s).2.
Proof.
  intros H. unfold upload_block, try_except, mbind, M_bind, bind.
  destruct (setup w s) as [[uri|e'] s2]; simpl in H; [discriminate|].
  injection H as ->. reflexivity.
Qed.

(** C8. When the set-up of an upload (temporary file, sqlite connection,
    reading and decoding the file, running the script, opening the database,
    creating the model client) raises [e], the script does not raise: the
    outer handler reports the failure in a message that ends with the text
    of [e], the log is left as it was, and before the report no question
    widget is shown and no schema introspection, translation or execution is
    made. *)
Theorem C8_setup_failure (w : world) (s : state) (e : exn) :
  truthy (w_groq_api_key w) = true ->
  w_uploaded_file w = true ->
  (setup w s).1 = Raise e ->
  (main w s).1 = Ok tt /\
  messages_of (main w s).2 = messages_of s /\
  exists evs,
    trace (main w s).2
      = trace s ++ evs ++ [EvError ("❌ Failed to process SQL file: " +:+ exn_text e)] /\
    Forall (fun ev => pipeline_event ev = false) evs.
Proof.
  intros Hkey Hfile Hfail. unfold main.
  rewrite script_ready by assumption.
  rewrite (setup_result_indep w s (ready w s)) in Hfail.
  rewrite (upload_block_setup_fails _ _ _ e Hfail).
  assert (extends (fun _ => False) (fun ev => pipeline_event ev = false)
            s (setup w (ready w s)).2) as (added & evs & Hm & Ha & Ht & He & _).
  { eapply extends_trans; [apply extends_ready | apply grows_setup].
    repeat constructor. }
  destruct added as [|t added]; [|inversion Ha; contradiction].
  rewrite app_nil_r in Hm. simpl.
  split; [reflexivity|]. split; [exact Hm|].
  exists evs. rewrite Ht, <- app_assoc. split; [reflexivity | exact He].
Qed.

Lemma C8_setup_failure_witness :
  (main w_bad_script s_fresh).1 = Ok tt /\
  messages_of (main w_bad_script s_fresh).2 = messages_of s_fresh /\
  exists evs,
    trace (main w_bad_script s_fresh).2
      = trace s_fresh ++ evs
          ++ [EvError ("❌ Failed to process SQL file: " +:+ "incomplete input")] /\
    Forall (fun ev => pipeline_event ev = false) evs.
Proof.
  apply (C8_setup_failure w_bad_script s_fresh (Exn OtherException "incomplete input"));
    reflexivity.
Defined.

(** ** The per-question handler *)

(** Unfolds one question down to the answers of the world. *)
Ltac run_question :=
  cbv beta iota zeta delta [per_question call emit append_message
    mbind M_bind bind mret M_ret ret try_except raise
    environ session_messages trace fst snd].

Lemma speak_text_state (w : world) (uv : bool) (text : string) (s : state) :
  session_messages (speak_text w uv text s).2 = session_messages s /\
  environ (speak_text w uv text s).2 = environ s.
Proof.
  destruct uv; [|split; reflexivity].
  cbv beta iota zeta delta [speak_text call emit mbind M_bind bind].
  repeat match goal with
         | |- context [match ?r with Ok _ => _ | Raise _ => _ end] =>
             destruct r; try (split; reflexivity)
         end.
Qed.

Lemma fails_speak_text_on (w : world) (uv : bool) (text : string) :
  fails (speak_text w uv text) -> uv = true.
Proof.
  intros H. destruct uv; [reflexivity|].
  destruct (H s_fresh) as [e He]. discriminate.
Qed.

Lemma response_is_not_fallback (query : string) :
  Turn "assistant" (response_message query) <> Turn "assistant" error_message.
Proof. unfold response_message, error_message. simpl. discriminate. Qed.

(** The handler never tells errors apart: making every error of the
    pipeline anonymous changes neither its result nor the state it leaves. *)
Lemma per_question_error_blind (w : world) (uv : bool) (q : string) (s : state) :
  per_question (forget_errors w) uv q s = per_question w uv q s.
Proof.
  destruct w, s as [env [log|] tr], uv;
    cbv beta iota zeta delta [per_question speak_text call emit append_message
      mbind M_bind bind mret M_ret ret try_except raise forget_errors
      environ session_messages trace
      w_get_table_info w_invoke w_db_run w_dataframe
      w_import_tts w_tts_init w_tts_say w_tts_run];
    try reflexivity;
    repeat match goal with
           | |- context [forget ?r] => destruct r; cbn [forget]; try reflexivity
           end.
Qed.

(** What the handler leaves once a statement has been generated: the
    question and the statement are in the log whatever follows, alone or
    followed by the fallback turn. *)
Lemma per_question_generated (w : world) (uv : bool) (q : string) (s : state)
    (log : list turn) (schema query : string) :
  session_messages s = Some log ->
  w_get_table_info w = Ok schema ->
  w_invoke w q schema = Ok query ->
  exists tail,
    session_messages (per_question w uv q s).2
      = Some (log ++ [Turn "user" q; Turn "assistant" (response_message query)] ++ tail) /\
    (tail = [] \/ tail = [Turn "assistant" error_message]).
Proof.
  intros Hlog Hschema Hquery. destruct s as [env msgs tr]. simpl in Hlog. subst msgs.
  run_question. rewrite Hschema. cbv beta iota. rewrite Hquery. cbv beta iota.
  destruct (w_db_run w query) as [rows|e]; cbv beta iota;
    [destruct (w_dataframe w rows) as [[]|e]; cbv beta iota|].
  - match goal with
    | |- context [speak_text w uv ?t ?s0] =>
        pose proof (speak_text_state w uv t s0) as [Hm _];
        destruct (speak_text w uv t s0) as [[[]|e] [env1 msgs1 tr1]]
    end; simpl in Hm; subst msgs1; simpl.
    + exists []. rewrite <- ?app_assoc. auto.
    + exists [Turn "assistant" error_message]. rewrite <- ?app_assoc. auto.
  - exists [Turn "assistant" error_message]. simpl. rewrite <- ?app_assoc. auto.
  - exists [Turn "assistant" error_message]. simpl. rewrite <- ?app_assoc. auto.
Qed.

(** C1, as the code has it. When schema introspection, SQL generation or
    query execution raises, the per-question handler returns normally (no
    exception escapes); the log is the log as it stood before the failing
    step (the earlier turns, the question and, if it was generated, the
    statement) followed by one assistant turn whose content is the fixed
    text [error_message], which starts with a space; that fallback turn
    occurs exactly once among the turns added; and neither the result nor
    the state left (log and displayed trace) depends on the error raised. *)
Theorem C1_fallback_on_failure (w : world) (uv : bool) (q : string) (s : state)
    (log : list turn) (generated : option string) :
  session_messages s = Some log ->
  pipeline_failure w q generated ->
  let sql_turn := match generated with
                  | Some query => [Turn "assistant" (response_message query)]
                  | None => []
                  end in
  let before := log ++ Turn "user" q :: sql_turn in
  (per_question w uv q s).1 = Ok tt /\
  session_messages (per_question w uv q s).2
    = Some (before ++ [Turn "assistant" " Ask more questions about your database."]) /\
  fallback_turns (Turn "user" q :: sql_turn ++ [Turn "assistant" error_message]) = 1%nat /\
  per_question (forget_errors w) uv q s = per_question w uv q s.
Proof.
  intros Hlog Hfail sql_turn before.
  split; [|split; [|split]].
  - destruct s as [env msgs tr]. simpl in Hlog. subst msgs.
    destruct Hfail as [e He | schema e Hs He | schema query e Hs Hq He];
      run_question; rewrite ?Hs; cbv beta iota; rewrite ?Hq; cbv beta iota;
      rewrite He; reflexivity.
  - destruct s as [env msgs tr]. simpl in Hlog. subst msgs.
    subst before sql_turn.
    destruct Hfail as [e He | schema e Hs He | schema query e Hs Hq He];
      run_question; rewrite ?Hs; cbv beta iota; rewrite ?Hq; cbv beta iota;
      rewrite He; cbv beta iota; f_equal; rewrite <- ?app_assoc; reflexivity.
  - subst sql_turn. unfold fallback_turns.
    rewrite filter_cons_False by discriminate.
    destruct generated as [query|]; cbn [app].
    + rewrite filter_cons_False by apply response_is_not_fallback.
      rewrite filter_cons_True by reflexivity. reflexivity.
    + rewrite filter_cons_True by reflexivity. reflexivity.
  - apply per_question_error_blind.
Qed.

Lemma C1_fallback_on_failure_witness :
  (per_question w_bad_query true "how many users are there?" s_empty).1 = Ok tt /\
  session_messages (per_question w_bad_query true "how many users are there?" s_empty).2
    = Some [Turn "user" "how many users are there?";
            Turn "assistant" (response_message "SELECT COUNT(*) FROM user");
            Turn "assistant" " Ask more questions about your database."].
Proof.
  destruct (C1_fallback_on_failure w_bad_query true "how many users are there?"
              s_empty [] (Some "SELECT COUNT(*) FROM user") eq_refl) as (H1 & H2 & _).
  - eapply execution_fails; reflexivity.
  - split; [exact H1 | exact H2].
Defined.

(** C1, as stated, fails: the content of the turn that the handler appends
    is not the text "Ask more questions about your database." (the text in
    the code has a leading space).  Here the generated statement names a
    missing table and the execution raises; no turn of the resulting log has
    the stated content. *)
Lemma C1_counterexample :
  pipeline_failure w_bad_query "how many users are there?"
    (Some "SELECT COUNT(*) FROM user") /\
  ~ exists t,
      t ∈ messages_of (per_question w_bad_query true "how many users are there?" s_empty).2 /\
      content t = "Ask more questions about your database.".
Proof.
  split.
  - eapply execution_fails; reflexivity.
  - intros (t & Hin & Hc).
    change (t ∈ [Turn "user" "how many users are there?";
                 Turn "assistant" (response_message "SELECT COUNT(*) FROM user");
                 Turn "assistant" " Ask more questions about your database."]) in Hin.
    repeat (apply elem_of_cons in Hin as [-> | Hin]; [discriminate Hc|]).
    apply elem_of_nil in Hin. exact Hin.
Qed.

(** C1, at the failing input: the generated statement names a missing
    table, [db.run] raises, and the handler appends an assistant turn whose
    content is the literal of line 142, which begins with a space and so is
    not the message that the claim quotes. *)
Lemma C1_code_at_failing_input :
  per_question w_bad_query true "how many users are there?" s_empty
  = (Ok tt,
     State ∅
       (Some [Turn "user" "how many users are there?";
              Turn "assistant" (response_message "SELECT COUNT(*) FROM user");
              Turn "assistant" " Ask more questions about your database."])
       [EvChatMessage "user" "how many users are there?";
        EvGetTableInfo;
        EvInvoke "how many users are there?" "CREATE TABLE users(id, name)";
        EvChatMessage "assistant" (response_message "SELECT COUNT(*) FROM user");
        EvDbRun "SELECT COUNT(*) FROM user";
        EvChatMessage "assistant" " Ask more questions about your database."]) /\
  " Ask more questions about your database."
    <> "Ask more questions about your database.".
Proof. split; [reflexivity | discriminate]. Qed.

(** C9. When generation succeeds and execution raises, the log gains exactly
    three turns, in order: the question, the assistant message holding the
    generated statement, the fallback message; the trace shows the statement
    message displayed before [db.run] is called.  The question and the
    statement message are in the log whatever [db.run] answers. *)
Theorem C9_three_turns_on_failed_execution (w : world) (uv : bool) (q : string)
    (s : state) (log : list turn) (schema query : string) (e : exn) :
  session_messages s = Some log ->
  w_get_table_info w = Ok schema ->
  w_invoke w q schema = Ok query ->
  w_db_run w query = Raise e ->
  per_question w uv q s
    = (Ok tt,
       State (environ s)
         (Some (log ++ [Turn "user" q;
                        Turn "assistant" (response_message query);
                        Turn "assistant" error_message]))
         (trace s ++ [EvChatMessage "user" q;
                      EvGetTableInfo;
                      EvInvoke q schema;
                      EvChatMessage "assistant" (response_message query);
                      EvDbRun query;
                      EvChatMessage "assistant" error_message])) /\
  forall w' uv',
    w_get_table_info w' = Ok schema ->
    w_invoke w' q schema = Ok query ->
    (log ++ [Turn "user" q; Turn "assistant" (response_message query)])
      `prefix_of` messages_of (per_question w' uv' q s).2.
Proof.
  intros Hlog Hs Hq He. split.
  - destruct s as [env msgs tr]. simpl in Hlog. subst msgs.
    run_question. rewrite Hs. cbv beta iota. rewrite Hq. cbv beta iota.
    rewrite He. cbv beta iota. rewrite <- !app_assoc. reflexivity.
  - intros w' uv' Hs' Hq'.
    destruct (per_question_generated w' uv' q s log schema query Hlog Hs' Hq')
      as (tail & Hfinal & _).
    unfold messages_of. rewrite Hfinal. simpl.
    exists tail. rewrite <- app_assoc. reflexivity.
Qed.

Lemma C9_three_turns_on_failed_execution_witness :
  session_messages (per_question w_bad_query true "how many users are there?" s_empty).2
  = Some [Turn "user" "how many users are there?";
          Turn "assistant" (response_message "SELECT COUNT(*) FROM user");
          Turn "assistant" error_message].
Proof.
  destruct (C9_three_turns_on_failed_execution w_bad_query true
              "how many users are there?" s_empty []
              "CREATE TABLE users(id, name)" "SELECT COUNT(*) FROM user"
              (Exn OtherException "no such table: user")
              eq_refl eq_refl eq_refl eq_refl) as [H _].
  rewrite H. reflexivity.
Defined.

Lemma grows_speak_text_voice (w : world) (uv : bool) (text : string) :
  grows (fun _ => False) (fun ev => voice_event ev = true) (speak_text w uv text).
Proof. apply grows_speak_text. auto. Qed.

(** C10. When the query has run and its result has been displayed, an
    exception raised by [speak_text] (which needs the voice flag on) is
    caught by the handler of the question: the handler returns normally and
    appends the fallback turn, after the question and the statement; the log
    is the very log that a failed execution of the same statement leaves. *)
Theorem C10_speech_failure_falls_back (w : world) (uv : bool) (q : string)
    (s : state) (log : list turn) (schema query rows : string) :
  session_messages s = Some log ->
  w_get_table_info w = Ok schema ->
  w_invoke w q schema = Ok query ->
  w_db_run w query = Ok rows ->
  fails (speak_text w uv ("Here is your SQL query: " +:+ query)) ->
  uv = true /\
  (per_question w uv q s).1 = Ok tt /\
  session_messages (per_question w uv q s).2
    = Some (log ++ [Turn "user" q;
                    Turn "assistant" (response_message query);
                    Turn "assistant" error_message]) /\
  (exists evs,
     trace (per_question w uv q s).2
       = trace s ++ [EvChatMessage "user" q; EvGetTableInfo; EvInvoke q schema;
                     EvChatMessage "assistant" (response_message query);
                     EvDbRun query; EvDataframe rows]
           ++ evs ++ [EvChatMessage "assistant" error_message] /\
     Forall (fun ev => voice_event ev = true) evs) /\
  forall w' uv' e,
    w_get_table_info w' = Ok schema ->
    w_invoke w' q schema = Ok query ->
    w_db_run w' query = Raise e ->
    session_messages (per_question w' uv' q s).2
      = session_messages (per_question w uv q s).2.
Proof.
  intros Hlog Hs Hq Hr Hfail.
  enough ((per_question w uv q s).1 = Ok tt /\
          session_messages (per_question w uv q s).2
            = Some (log ++ [Turn "user" q;
                            Turn "assistant" (response_message query);
                            Turn "assistant" error_message]) /\
          (exists evs,
             trace (per_question w uv q s).2
               = trace s ++ [EvChatMessage "user" q; EvGetTableInfo; EvInvoke q schema;
                             EvChatMessage "assistant" (response_message query);
                             EvDbRun query; EvDataframe rows]
                   ++ evs ++ [EvChatMessage "assistant" error_message] /\
             Forall (fun ev => voice_event ev = true) evs)) as (H1 & H2 & H3).
  { split; [exact (fails_speak_text_on _ _ _ Hfail)|].
    split; [exact H1|]. split; [exact H2|]. split; [exact H3|].
    intros w' uv' e Hs' Hq' He'. rewrite H2.
    destruct s as [env msgs tr]. simpl in Hlog. subst msgs.
    run_question. rewrite Hs'. cbv beta iota. rewrite Hq'. cbv beta iota.
    rewrite He'. cbv beta iota. rewrite <- !app_assoc. reflexivity. }
  destruct s as [env msgs tr]. simpl in Hlog. subst msgs.
  run_question. rewrite Hs. cbv beta iota. rewrite Hq. cbv beta iota.
  rewrite Hr. cbv beta iota.
  destruct (w_dataframe w rows) as [[]|ed]; cbv beta iota.
  - (* the rows are displayed, the speech raises *)
    match goal with
    | |- context [speak_text w uv ?t ?s0] =>
        destruct (Hfail s0) as [e He];
        pose proof (speak_text_state w uv t s0) as [Hm _];
        destruct (grows_speak_text_voice w uv t s0) as (_ & evs & _ & _ & Ht & Hev & _);
        destruct (speak_text w uv t s0) as [[[]|e'] [env1 msgs1 tr1]]
    end; simpl in He, Hm, Ht; [discriminate|]. subst msgs1 tr1. simpl.
    split; [reflexivity|]. split; [rewrite <- !app_assoc; reflexivity|].
    exists evs. split; [rewrite <- !app_assoc; reflexivity | exact Hev].
  - (* the display itself raises: the same handler, nothing spoken *)
    simpl. split; [reflexivity|]. split; [rewrite <- !app_assoc; reflexivity|].
    exists []. split; [rewrite <- !app_assoc; reflexivity | constructor].
Qed.

Lemma C10_speech_failure_falls_back_witness :
  (per_question w_mute true "how many users are there?" s_empty).1 = Ok tt /\
  session_messages (per_question w_mute true "how many users are there?" s_empty).2
    = Some [Turn "user" "how many users are there?";
            Turn "assistant" (response_message "SELECT COUNT(*) FROM user");
            Turn "assistant" error_message] /\
  session_messages (per_question w_bad_query true "how many users are there?" s_empty).2
    = session_messages (per_question w_mute true "how many users are there?" s_empty).2.
Proof.
  destruct (C10_speech_failure_falls_back w_mute true "how many users are there?"
              s_empty [] "CREATE TABLE users(id, name)" "SELECT COUNT(*) FROM user"
              "[(1,)]" eq_refl eq_refl eq_refl eq_refl)
    as (_ & H1 & H2 & _ & H3).
  - intros s. exists (Exn OtherException "eSpeak is not installed"). reflexivity.
  - split; [exact H1|]. split; [exact H2|].
    apply (H3 w_bad_query true (Exn OtherException "no such table: user"));
      reflexivity.
Defined.

(** ** Voice input *)

(** Unfolds the voice input down to the answers of the world. *)
Ltac run_voice :=
  cbv beta iota zeta delta [question_input chat_input voice_column
    get_voice_input call emit mbind M_bind bind mret M_ret ret try_except raise
    environ session_messages trace fst snd].

(** C6. With voice enabled and a recording made, [get_voice_input] handles
    exactly two failures of the recognition: for audio that is not
    understood it shows a warning and returns [None]; for an error of the
    speech service it shows an error report and returns [None]; neither
    raises (an exception of any other class is not handled and propagates).
    In both handled cases the voice column leaves the question as it was:
    unset, unless something was typed. *)
Theorem C6_voice_failure_modes (w : world) (s : state) (typed : option string)
    (e : exn) :
  mic_ready w ->
  w_recognize_google w = Raise e ->
  let heard := trace s ++ listen_events in
  get_voice_input w true s
    = match exn_cls e with
      | UnknownValueError =>
          (Ok None,
           State (environ s) (session_messages s)
             (heard ++ [EvWarning "⚠️ Could not understand the audio. Try again."]))
      | RequestError =>
          (Ok None,
           State (environ s) (session_messages s)
             (heard ++ [EvError "❌ Error with Google Speech Recognition API."]))
      | _ => (Raise e, State (environ s) (session_messages s) heard)
      end /\
  (exn_cls e = UnknownValueError \/ exn_cls e = RequestError ->
   w_button w = true ->
   (voice_column w true typed s).1 = Ok typed /\
   session_messages (voice_column w true typed s).2 = session_messages s).
Proof.
  intros (Hi & Hm & Ha & Hl) Hr heard. subst heard. unfold listen_events. split.
  - run_voice. rewrite Hi, Hm, Ha, Hl, Hr. cbv beta iota.
    destruct (exn_cls e); cbv beta iota; rewrite <- !app_assoc; reflexivity.
  - intros Hcls Hb. run_voice. rewrite Hb, Hi, Hm, Ha, Hl, Hr. cbv beta iota.
    destruct Hcls as [-> | ->]; split; reflexivity.
Qed.

Lemma C6_voice_failure_modes_witness :
  ((get_voice_input w_unheard true s_empty).1 = Ok None /\
   (voice_column w_unheard true (Some "typed") s_empty).1 = Ok (Some "typed")) /\
  ((get_voice_input w_offline true s_empty).1 = Ok None /\
   (voice_column w_offline true None s_empty).1 = Ok None).
Proof.
  split.
  - destruct (C6_voice_failure_modes w_unheard s_empty (Some "typed")
                (Exn UnknownValueError "")) as [H1 H2].
    + repeat split.
    + reflexivity.
    + split; [rewrite H1; reflexivity|].
      apply H2; [left|]; reflexivity.
  - destruct (C6_voice_failure_modes w_offline s_empty None
                (Exn RequestError "recognition connection failed")) as [H1 H2].
    + repeat split.
    + reflexivity.
    + split; [rewrite H1; reflexivity|].
      apply H2; [right|]; reflexivity.
Defined.



(** * Further properties of the script *)

(** ** Stepping through sequences and handlers *)

Lemma bind_ok {A B} (m : M A) (k : A -> M B) (s s1 : state) (a : A) :
  m s = (Ok a, s1) -> (m ≫= k) s = k a s1.
Proof. intros H. unfold mbind, M_bind, bind. rewrite H. reflexivity. Qed.

Lemma bind_raise {A B} (m : M A) (k : A -> M B) (s s1 : state) (e : exn) :
  m s = (Raise e, s1) -> (m ≫= k) s = (Raise e, s1).
Proof. intros H. unfold mbind, M_bind, bind. rewrite H. reflexivity. Qed.

Lemma try_ok {A} (m : M A) (h : exn -> M A) (s s1 : state) (a : A) :
  m s = (Ok a, s1) -> try_except m h s = (Ok a, s1).
Proof. intros H. unfold try_except. rewrite H. reflexivity. Qed.

Lemma try_raise {A} (m : M A) (h : exn -> M A) (s s1 : state) (e : exn) :
  m s = (Raise e, s1) -> try_except m h s = h e s1.
Proof. intros H. unfold try_except. rewrite H. reflexivity. Qed.

Lemma truthy_true (v : string) : v <> "" -> truthy v = true.
Proof. intros H. unfold truthy. apply bool_decide_eq_true_2. exact H. Qed.

(** ** The branches around the upload block *)


Lemma script_no_key (w : world) (uv : bool) (s : state) :
  truthy (w_groq_api_key w) = false ->
  script w uv s
  = (Ok tt,
     State (environ s) (Some (messages_of s))
       (trace s ++ header_events ++
        [EvInfo "⬅ Upload a `.sql` file and enter your Groq API key to begin."])).
Proof.
  intros Hkey. destruct s as [env [l|] tr];
    cbv beta iota zeta delta [script page_header mbind M_bind bind emit
      init_messages setenv environ session_messages trace];
    rewrite Hkey; unfold messages_of, header_events; simpl;
    rewrite <- !app_assoc; reflexivity.
Qed.

Lemma script_no_file (w : world) (uv : bool) (s : state) :
  truthy (w_groq_api_key w) = true ->
  w_uploaded_file w = false ->
  script w uv s
  = (Ok tt,
     State (<["GROQ_API_KEY" := w_groq_api_key w]> (environ s))
       (Some (messages_of s)) (trace s ++ header_events)).
Proof.
  intros Hkey Hfile. destruct s as [env [l|] tr];
    cbv beta iota zeta delta [script page_header mbind M_bind bind emit
      init_messages setenv environ session_messages trace mret M_ret ret];
    rewrite Hkey, Hfile; unfold messages_of, header_events; simpl;
    rewrite <- !app_assoc; reflexivity.
Qed.


(** X2. Without a credential (an empty key field) the script only shows the
    page header and the prompt to enter a key and upload a file: the
    environment is left as it is (a credential installed by an earlier
    execution is not removed), the log is left as it is, and nothing else is
    called, even when a file is uploaded. *)
Theorem X2_no_key_only_prompts (w : world) (s : state) :
  w_groq_api_key w = "" ->
  main w s
  = (Ok tt,
     State (environ s) (Some (messages_of s))
       (trace s ++ header_events ++
        [EvInfo "⬅ Upload a `.sql` file and enter your Groq API key to begin."])).
Proof.
  intros Hkey. unfold main. apply script_no_key. rewrite Hkey. reflexivity.
Qed.

Lemma X2_no_key_only_prompts_witness :
  main w_no_key s_keyed
  = (Ok tt,
     State {[ "GROQ_API_KEY" := "gsk_old" ]} (Some seven_turns)
       (header_events ++
        [EvInfo "⬅ Upload a `.sql` file and enter your Groq API key to begin."])).
Proof. exact (X2_no_key_only_prompts w_no_key s_keyed eq_refl). Defined.



(** ** The set-up of an upload *)

Ltac run_setup :=
  cbv beta iota zeta delta [setup call emit mbind M_bind bind mret M_ret ret
    environ session_messages trace].

Lemma setup_run (w : world) (s : state) (db_path sql_script : string) :
  setup_ok w db_path sql_script ->
  setup w s
  = (Ok ("sqlite:///" +:+ db_path),
     State (environ s) (session_messages s)
       (trace s ++ setup_events db_path sql_script)).
Proof.
  intros (Ht & Hc & Hr & Hx & Hm & Hl & Hu & Hg).
  run_setup. rewrite Ht. cbv beta iota. rewrite Hc. cbv beta iota.
  rewrite Hr. cbv beta iota. rewrite Hx. cbv beta iota.
  rewrite Hm, Hl. cbv beta iota. rewrite Hu. cbv beta iota.
  rewrite Hg. cbv beta iota.
  unfold setup_events. rewrite <- !app_assoc. reflexivity.
Qed.

(** X4. The database that the chain queries is the file the upload was
    loaded into: when every step succeeds, the set-up connects sqlite to the
    temporary path, runs exactly the decoded upload on it, commits, closes,
    then opens the URI made of the same path, and returns that URI; the log
    and the environment are untouched. *)
Theorem X4_setup_loads_then_opens (w : world) (s : state)
    (db_path sql_script : string) :
  setup_ok w db_path sql_script ->
  setup w s
  = (Ok ("sqlite:///" +:+ db_path),
     State (environ s) (session_messages s)
       (trace s ++
        [EvTempFile; EvConnect db_path; EvReadDecode; EvExecuteScript sql_script;
         EvCommit; EvClose; EvFromUri ("sqlite:///" +:+ db_path); EvChatGroq;
         EvPrompt; EvSuccess "✅ Database loaded and ready!"])).
Proof. intros H. apply setup_run. exact H. Qed.

Lemma X4_setup_loads_then_opens_witness :
  (setup w_fine s_fresh).1 = Ok "sqlite:////tmp/tmpa1.db".
Proof.
  rewrite (X4_setup_loads_then_opens w_fine s_fresh "/tmp/tmpa1.db"
             "CREATE TABLE users(id, name);").
  - reflexivity.
  - repeat split.
Defined.

(** X5. A script that sqlite rejects stops the set-up where it fails: the
    temporary file has been created and the connection opened, and neither
    commit nor close is called, the database is not opened through its URI
    and the model client is not created. *)
Theorem X5_rejected_script_stops_setup (w : world) (s : state)
    (db_path sql_script : string) (e : exn) :
  w_tmpfile w = Ok db_path ->
  w_connect w db_path = Ok tt ->
  w_read_decode w = Ok sql_script ->
  w_executescript w sql_script = Raise e ->
  setup w s
  = (Raise e,
     State (environ s) (session_messages s)
       (trace s ++ [EvTempFile; EvConnect db_path; EvReadDecode;
                    EvExecuteScript sql_script])).
Proof.
  intros Ht Hc Hr Hx.
  run_setup. rewrite Ht. cbv beta iota. rewrite Hc. cbv beta iota.
  rewrite Hr. cbv beta iota. rewrite Hx. cbv beta iota.
  rewrite <- !app_assoc. reflexivity.
Qed.

Lemma X5_rejected_script_stops_setup_witness :
  setup w_bad_script s_fresh
  = (Raise (Exn OtherException "incomplete input"),
     State ∅ None
       [EvTempFile; EvConnect "/tmp/tmpa1.db"; EvReadDecode;
        EvExecuteScript "CREATE TABLE users(id, name;"]).
Proof.
  exact (X5_rejected_script_stops_setup w_bad_script s_fresh "/tmp/tmpa1.db"
           "CREATE TABLE users(id, name;" (Exn OtherException "incomplete input")
           eq_refl eq_refl eq_refl eq_refl).
Defined.

(** ** What a computation leaves alone *)

Section Preserves.
Context {X : Type}.
Variable f : state -> X.
Hypothesis f_ignores_trace :
  forall env msgs tr tr', f (State env msgs tr) = f (State env msgs tr').

Lemma preserves_mret {A} (a : A) : preserves f (mret a : M A).
Proof. intros s. reflexivity. Qed.

Lemma preserves_raise {A} (e : exn) : preserves f (@raise A e).
Proof. intros s. reflexivity. Qed.

Lemma preserves_bind {A B} (m : M A) (k : A -> M B) :
  preserves f m -> (forall a, preserves f (k a)) -> preserves f (m ≫= k).
Proof.
  intros Hm Hk s. specialize (Hm s).
  unfold mbind, M_bind, bind. destruct (m s) as [[a|e] s1]; simpl in Hm.
  - rewrite Hk. exact Hm.
  - exact Hm.
Qed.

Lemma preserves_try_except {A} (m : M A) (h : exn -> M A) :
  preserves f m -> (forall e, preserves f (h e)) -> preserves f (try_except m h).
Proof.
  intros Hm Hh s. specialize (Hm s).
  unfold try_except. destruct (m s) as [[a|e] s1]; simpl in Hm.
  - exact Hm.
  - rewrite Hh. exact Hm.
Qed.

Lemma preserves_emit (ev : event) : preserves f (emit ev).
Proof. intros [env msgs tr]. apply f_ignores_trace. Qed.

Lemma preserves_call {A} (ev : event) (r : result A) : preserves f (call ev r).
Proof. intros [env msgs tr]. apply f_ignores_trace. Qed.

Lemma preserves_get_messages : preserves f get_messages.
Proof. intros [env [l|] tr]; reflexivity. Qed.

Lemma preserves_for_each {A} (l : list A) (body : A -> M unit) :
  (forall x, preserves f (body x)) -> preserves f (for_each l body).
Proof.
  intros H. induction l as [|x l IH]; simpl.
  - apply preserves_mret.
  - apply preserves_bind; auto.
Qed.
End Preserves.

Lemma preserves_environ_append (t : turn) : preserves environ (append_message t).
Proof. intros [env [l|] tr]; reflexivity. Qed.

Lemma preserves_environ_init : preserves environ init_messages.
Proof. intros [env [l|] tr]; reflexivity. Qed.

Create HintDb preserves.
#[export] Hint Resolve preserves_mret preserves_raise preserves_emit
  preserves_call preserves_get_messages preserves_environ_append
  preserves_environ_init : preserves.

(** Splits the conditionals, then composes the rules of [preserves]. *)
Ltac preserves_auto :=
  repeat match goal with
         | |- preserves _ (if ?b then _ else _) => destruct b
         | |- preserves _ (match ?x with _ => _ end) => destruct x
         | |- preserves _ (_ ≫= _) => apply preserves_bind; [|intros]
         | |- preserves _ (try_except _ _) => apply preserves_try_except; [|intros]
         | |- preserves _ (for_each _ _) => apply preserves_for_each; intros
         | |- _ => solve [auto with preserves]
         end.

Lemma preserves_voice (w : world) (uv : bool) {X} (f : state -> X) :
  (forall env msgs tr tr', f (State env msgs tr) = f (State env msgs tr')) ->
  preserves f (get_voice_input w uv) /\
  (forall text, preserves f (speak_text w uv text)) /\
  preserves f (question_input w uv).
Proof.
  intros Hf. split; [|split; [intros text|]];
    unfold question_input, chat_input, voice_column, get_voice_input, speak_text;
    preserves_auto.
Qed.

Lemma preserves_environ_upload_block (w : world) (uv : bool) :
  preserves environ (upload_block w uv).
Proof.
  unfold upload_block, setup, render_history, question_input, chat_input,
    voice_column, handle_question, per_question, get_voice_input, speak_text.
  cbv zeta. preserves_auto.
Qed.

(** ** The environment and the session *)

Lemma main_environ (w : world) (s : state) :
  environ (main w s).2
  = if truthy (w_groq_api_key w)
    then <["GROQ_API_KEY" := w_groq_api_key w]> (environ s)
    else environ s.
Proof.
  unfold main. set (uv := use_voice (environ s)).
  destruct (truthy (w_groq_api_key w)) eqn:Hkey;
    [destruct (w_uploaded_file w) eqn:Hfile|].
  - rewrite script_ready by assumption.
    rewrite preserves_environ_upload_block. reflexivity.
  - rewrite script_no_file by assumption. reflexivity.
  - rewrite script_no_key by assumption. reflexivity.
Qed.

Lemma main_use_voice (w : world) (s : state) :
  use_voice (environ (main w s).2) = use_voice (environ s).
Proof.
  rewrite main_environ. destruct (truthy (w_groq_api_key w)); [|reflexivity].
  unfold use_voice, getenv. rewrite lookup_insert_ne by discriminate.
  reflexivity.
Qed.

Lemma main_extends (w : world) (s : state) :
  extends well_formed (fun _ => True) s (main w s).2.
Proof. unfold main. apply grows_script. Qed.



Lemma session_cons (w : world) (ws : list world) (s : state) :
  session (w :: ws) s = session ws (main w s).2.
Proof. reflexivity. Qed.

(** X7. Over a whole session, that is any number of executions of the
    script, each starting from the state left by the one before and each
    with its own inputs and library answers: the log found at the start is
    kept, in order, at the front of the final log; every turn added has the
    role user or assistant; and every execution reads the same voice
    flag. *)
Theorem X7_session_log_only_grows (ws : list world) (s : state) :
  (exists added : list turn,
     messages_of (session ws s) = messages_of s ++ added /\
     Forall well_formed added) /\
  use_voice (environ (session ws s)) = use_voice (environ s).
Proof.
  revert s. induction ws as [|w ws IH]; intros s.
  - split; [|reflexivity]. exists []. rewrite app_nil_r. split; [reflexivity | constructor].
  - rewrite session_cons.
    destruct (IH (main w s).2) as ((added2 & Hm2 & Hwf2) & Hv).
    destruct (main_extends w s) as (added1 & _ & Hm1 & Hwf1 & _).
    split.
    + exists (added1 ++ added2). rewrite Hm2, Hm1, <- app_assoc.
      split; [reflexivity | apply Forall_app; auto].
    + rewrite Hv. apply main_use_voice.
Qed.

(** ** One question, whatever the libraries answer *)

Lemma per_question_total (w : world) (uv : bool) (q : string) (s : state)
    (log : list turn) :
  session_messages s = Some log ->
  exists tail evs,
    per_question w uv q s
    = (Ok tt,
       State (environ s) (Some (log ++ Turn "user" q :: tail))
         (trace s ++ EvChatMessage "user" q :: evs)) /\
    answer_turns tail /\
    chat_messages evs = map show_turn tail.
Proof.
  intros Hlog. destruct s as [env msgs tr]. simpl in Hlog. subst msgs.
  destruct uv;
    cbv beta iota zeta delta [per_question speak_text call emit append_message
      mbind M_bind bind mret M_ret ret try_except raise
      environ session_messages trace];
    repeat match goal with
           | |- context [match ?r with Ok _ => _ | Raise _ => _ end] =>
               destruct r; cbv beta iota
           end;
    repeat match goal with u : unit |- _ => destruct u end;
    rewrite <- !app_assoc; simpl;
    do 2 eexists; (split; [reflexivity|]);
    (split; [|reflexivity]);
    unfold answer_turns;
    first [ left; reflexivity
          | right; eexists; left; reflexivity
          | right; eexists; right; reflexivity ].
Qed.

(** X8. Once the log exists, the handling of a question never raises,
    whatever the database, the model and the speech engine answer; it leaves
    the environment as it is and adds to the log the user turn holding the
    question followed by one of: the fallback message, the message with the
    generated statement, or that message and then the fallback message.  A
    question thus adds two or three turns, never more. *)
Theorem X8_one_question_adds_two_or_three_turns (w : world) (uv : bool)
    (q : string) (s : state) (log : list turn) :
  session_messages s = Some log ->
  (per_question w uv q s).1 = Ok tt /\
  environ (per_question w uv q s).2 = environ s /\
  exists tail,
    session_messages (per_question w uv q s).2
      = Some (log ++ Turn "user" q :: tail) /\
    answer_turns tail /\
    (1 <= length tail <= 2)%nat.
Proof.
  intros Hlog.
  destruct (per_question_total w uv q s log Hlog) as (tail & evs & Hrun & Ha & _).
  rewrite Hrun. simpl. repeat split.
  exists tail. repeat split; try assumption.
  - destruct Ha as [-> | (query & [-> | ->])]; simpl; lia.
  - destruct Ha as [-> | (query & [-> | ->])]; simpl; lia.
Qed.

Lemma X8_one_question_adds_two_or_three_turns_witness :
  (per_question w_no_model true "how many users are there?" s_empty).1 = Ok tt /\
  exists tail,
    session_messages (per_question w_no_model true "how many users are there?" s_empty).2
      = Some ([] ++ Turn "user" "how many users are there?" :: tail) /\
    answer_turns tail /\ (1 <= length tail <= 2)%nat.
Proof.
  destruct (X8_one_question_adds_two_or_three_turns w_no_model true
              "how many users are there?" s_empty [] eq_refl) as (H1 & _ & H2).
  split; [exact H1 | exact H2].
Defined.

(** X9. What is logged for a question is what is shown for it: whatever the
    libraries answer, the chat bubbles displayed while a question is handled
    are exactly the turns added to the log, each shown once, in the order of
    the log, with the role and the content that were logged. *)
Theorem X9_logged_turns_are_the_displayed_ones (w : world) (uv : bool)
    (q : string) (s : state) (log : list turn) :
  session_messages s = Some log ->
  exists added evs,
    session_messages (per_question w uv q s).2 = Some (log ++ added) /\
    trace (per_question w uv q s).2 = trace s ++ evs /\
    chat_messages evs = map show_turn added.
Proof.
  intros Hlog.
  destruct (per_question_total w uv q s log Hlog) as (tail & evs & Hrun & _ & Hc).
  exists (Turn "user" q :: tail), (EvChatMessage "user" q :: evs).
  rewrite Hrun. simpl. repeat split.
  unfold chat_messages in *. simpl. rewrite Hc. reflexivity.
Qed.

Lemma X9_logged_turns_are_the_displayed_ones_witness :
  exists added evs,
    session_messages (per_question w_bad_query true "how many users are there?" s_empty).2
      = Some ([] ++ added) /\
    trace (per_question w_bad_query true "how many users are there?" s_empty).2
      = trace s_empty ++ evs /\
    chat_messages evs = map show_turn added.
Proof.
  exact (X9_logged_turns_are_the_displayed_ones w_bad_query true
           "how many users are there?" s_empty [] eq_refl).
Defined.

(** X10. A question that is answered: when the schema is read, the model
    returns a statement, the statement runs, the display of its rows
    succeeds and (with voice on) the speech engine works, the log gains
    exactly the question and the message with the statement, and no fallback
    message.  The model receives the question
    and the schema as they are, the text run on the database is the text the
    model returned, unchanged, the rows are displayed, and with voice on the
    statement is spoken after the rows are shown. *)
Theorem X10_answered_question (w : world) (uv : bool) (q : string) (s : state)
    (log : list turn) (schema query rows : string) :
  session_messages s = Some log ->
  w_get_table_info w = Ok schema ->
  w_invoke w q schema = Ok query ->
  w_db_run w query = Ok rows ->
  w_dataframe w rows = Ok tt ->
  (uv = true -> tts_ok w ("Here is your SQL query: " +:+ query)) ->
  per_question w uv q s
  = (Ok tt,
     State (environ s)
       (Some (log ++ [Turn "user" q; Turn "assistant" (response_message query)]))
       (trace s ++
        [EvChatMessage "user" q; EvGetTableInfo; EvInvoke q schema;
         EvChatMessage "assistant" (response_message query);
         EvDbRun query; EvDataframe rows] ++
        (if uv then tts_events ("Here is your SQL query: " +:+ query) else []))).
Proof.
  intros Hlog Hs Hq Hr Hd Htts. destruct s as [env msgs tr]. simpl in Hlog.
  subst msgs. destruct uv.
  - destruct (Htts eq_refl) as (Hi & Hn & Hy & Hw).
    cbv beta iota zeta delta [per_question speak_text call emit append_message
      mbind M_bind bind mret M_ret ret try_except raise
      environ session_messages trace].
    rewrite Hs. cbv beta iota. rewrite Hq. cbv beta iota.
    rewrite Hr. cbv beta iota. rewrite Hd. cbv beta iota.
    rewrite Hi, Hn. cbv beta iota.
    rewrite Hy. cbv beta iota. rewrite Hw. cbv beta iota.
    unfold tts_events. rewrite <- !app_assoc. reflexivity.
  - cbv beta iota zeta delta [per_question speak_text call emit append_message
      mbind M_bind bind mret M_ret ret try_except raise
      environ session_messages trace].
    rewrite Hs. cbv beta iota. rewrite Hq. cbv beta iota.
    rewrite Hr. cbv beta iota. rewrite Hd. cbv beta iota.
    rewrite <- !app_assoc. reflexivity.
Qed.

Lemma X10_answered_question_witness :
  session_messages (per_question w_fine true "how many users are there?" s_empty).2
  = Some [Turn "user" "how many users are there?";
          Turn "assistant" (response_message "SELECT COUNT(*) FROM users")].
Proof.
  rewrite (X10_answered_question w_fine true "how many users are there?" s_empty []
             "CREATE TABLE users(id, name)" "SELECT COUNT(*) FROM users" "[(1,)]");
    try reflexivity.
  intros _. repeat split.
Defined.

(** When the display of the rows raises, the same handler takes over: the
    statement has run, yet the log ends with the fallback message and
    nothing is spoken. *)
Example display_failure_falls_back :
  per_question w_no_display true "how many users are there?" s_empty
  = (Ok tt,
     State ∅
       (Some [Turn "user" "how many users are there?";
              Turn "assistant" (response_message "SELECT COUNT(*) FROM users");
              Turn "assistant" error_message])
       [EvChatMessage "user" "how many users are there?";
        EvGetTableInfo;
        EvInvoke "how many users are there?" "CREATE TABLE users(id, name)";
        EvChatMessage "assistant" (response_message "SELECT COUNT(*) FROM users");
        EvDbRun "SELECT COUNT(*) FROM users";
        EvDataframe "[(1,)]";
        EvChatMessage "assistant" error_message]).
Proof. reflexivity. Qed.

(** X11. When no statement is obtained, because reading the schema or the
    call to the model raises, nothing is run: the database is not queried,
    no rows are displayed and nothing is spoken; the log gains exactly two
    turns, the question and the fallback message, and no statement
    message. *)
Theorem X11_no_statement_no_execution (w : world) (uv : bool) (q : string)
    (s : state) (log : list turn) :
  session_messages s = Some log ->
  pipeline_failure w q None ->
  session_messages (per_question w uv q s).2
    = Some (log ++ [Turn "user" q; Turn "assistant" error_message]) /\
  exists evs,
    trace (per_question w uv q s).2 = trace s ++ evs /\
    Forall (fun ev => execution_event ev = false) evs.
Proof.
  intros Hlog Hfail. destruct s as [env msgs tr]. simpl in Hlog. subst msgs.
  inversion Hfail as [e He | schema e Hs He | ]; subst;
    run_question; rewrite ?Hs; cbv beta iota; rewrite He; cbv beta iota;
    rewrite <- !app_assoc; simpl;
    (split; [reflexivity|]); eexists; (split; [reflexivity|]);
    repeat constructor.
Qed.

Lemma X11_no_statement_no_execution_witness :
  session_messages (per_question w_no_model true "how many users are there?" s_empty).2
  = Some [Turn "user" "how many users are there?"; Turn "assistant" error_message].
Proof.
  destruct (X11_no_statement_no_execution w_no_model true
              "how many users are there?" s_empty [] eq_refl) as [H _].
  - eapply generation_fails; reflexivity.
  - exact H.
Defined.

(** ** Whole executions once the database is loaded *)

Lemma render_history_run (s : state) (log : list turn) :
  session_messages s = Some log ->
  render_history s
  = (Ok tt,
     State (environ s) (Some log)
       (trace s ++ map show_turn (slice_from (-5) log))).
Proof.
  intros Hlog. unfold render_history, mbind, M_bind, bind, get_messages.
  rewrite Hlog. rewrite (for_each_emit show_turn). rewrite Hlog. reflexivity.
Qed.

(** The state in which the question widgets are shown: set-up done and
    history rendered. *)
Lemma upload_block_after_setup (w : world) (uv : bool) (s : state)
    (db_path sql_script : string) (log : list turn) :
  setup_ok w db_path sql_script ->
  session_messages s = Some log ->
  upload_block w uv s
  = try_except
      (user_question ← question_input w uv; handle_question w uv user_question)
      (fun e => emit (setup_report e))
      (State (environ s) (Some log)
         (trace s ++ setup_events db_path sql_script
            ++ map show_turn (slice_from (-5) log))).
Proof.
  intros Hok Hlog. unfold upload_block, try_except.
  rewrite (bind_ok _ _ _ _ _ (setup_run w s db_path sql_script Hok)).
  cbv beta.
  rewrite (bind_ok _ _ _ _ _
             (render_history_run
                (State (environ s) (session_messages s)
                   (trace s ++ setup_events db_path sql_script)) log Hlog)).
  simpl. rewrite <- app_assoc. reflexivity.
Qed.

Lemma question_input_effect (w : world) (uv : bool) (s : state) :
  exists evs,
    question_input w uv s
    = ((question_input w uv s).1,
       State (environ s) (session_messages s) (trace s ++ evs)) /\
    Forall (fun ev => backend_call ev = false /\ is_chat_message ev = false) evs.
Proof.
  destruct (preserves_voice w uv environ) as (_ & _ & He); [reflexivity|].
  destruct (preserves_voice w uv session_messages) as (_ & _ & Hm); [reflexivity|].
  assert (grows (fun _ => False)
            (fun ev => backend_call ev = false /\ is_chat_message ev = false)
            (question_input w uv)) as Hg.
  { unfold question_input, chat_input, voice_column, get_voice_input.
    grows_auto. }
  specialize (He s). specialize (Hm s).
  destruct (Hg s) as (_ & evs & _ & _ & Ht & Hev & _).
  exists evs. split; [|exact Hev].
  destruct (question_input w uv s) as [r [env msgs tr]]. simpl in *.
  subst. reflexivity.
Qed.

Lemma blind_mret {A} (a : A) : state_blind (mret a : M A).
Proof. intros s s'. reflexivity. Qed.

Lemma blind_raise {A} (e : exn) : state_blind (@raise A e).
Proof. intros s s'. reflexivity. Qed.

Lemma blind_emit (ev : event) : state_blind (emit ev).
Proof. intros s s'. reflexivity. Qed.

Lemma blind_call {A} (ev : event) (r : result A) : state_blind (call ev r).
Proof. intros s s'. reflexivity. Qed.

Lemma blind_bind {A B} (m : M A) (k : A -> M B) :
  state_blind m -> (forall a, state_blind (k a)) -> state_blind (m ≫= k).
Proof.
  intros Hm Hk s s'. specialize (Hm s s').
  unfold mbind, M_bind, bind.
  destruct (m s) as [[a|e] s1], (m s') as [[a'|e'] s1']; simpl in Hm;
    try discriminate; injection Hm as ->; [apply Hk | reflexivity].
Qed.

Lemma blind_try_except {A} (m : M A) (h : exn -> M A) :
  state_blind m -> (forall e, state_blind (h e)) -> state_blind (try_except m h).
Proof.
  intros Hm Hh s s'. specialize (Hm s s').
  unfold try_except.
  destruct (m s) as [[a|e] s1], (m s') as [[a'|e'] s1']; simpl in Hm;
    try discriminate; injection Hm as ->; [reflexivity | apply Hh].
Qed.

Create HintDb blind.
#[export] Hint Resolve blind_mret blind_raise blind_emit blind_call : blind.

(** Splits the conditionals, then composes the rules of [state_blind]. *)
Ltac blind_auto :=
  repeat match goal with
         | |- state_blind (if ?b then _ else _) => destruct b
         | |- state_blind (match ?x with _ => _ end) => destruct x
         | |- state_blind (_ ≫= _) => apply blind_bind; [|intros]
         | |- state_blind (try_except _ _) => apply blind_try_except; [|intros]
         | |- _ => solve [auto with blind]
         end.

Lemma blind_get_voice_input (w : world) (uv : bool) :
  state_blind (get_voice_input w uv).
Proof. unfold get_voice_input. blind_auto. Qed.

Lemma question_input_result_indep (w : world) (uv : bool) (s s' : state) :
  (question_input w uv s).1 = (question_input w uv s').1.
Proof.
  revert s s'. change (state_blind (question_input w uv)).
  pose proof (blind_get_voice_input w uv) as Hv.
  unfold question_input, chat_input, voice_column. blind_auto.
Qed.

Lemma question_input_voice_raises (w : world) (s0 s : state) (e : exn) :
  w_button w = true ->
  (get_voice_input w true s0).1 = Raise e ->
  (question_input w true s).1 = Raise e.
Proof.
  intros Hb Hraise.
  unfold question_input, chat_input, voice_column. rewrite Hb.
  unfold mbind, M_bind, bind, emit, mret, M_ret, ret. cbv beta iota.
  match goal with
  | |- context [get_voice_input w true ?s2] =>
      rewrite (blind_get_voice_input w true s0 s2) in Hraise;
      destruct (get_voice_input w true s2) as [[r|e'] s3]
  end; simpl in Hraise; [discriminate|]. exact Hraise.
Qed.

Lemma chat_messages_app (evs1 evs2 : list event) :
  chat_messages (evs1 ++ evs2) = chat_messages evs1 ++ chat_messages evs2.
Proof. unfold chat_messages. apply List.filter_app. Qed.

Lemma chat_messages_shown (l : list turn) :
  chat_messages (map show_turn l) = map show_turn l.
Proof.
  induction l as [|t l IH]; [reflexivity|].
  unfold chat_messages in *. simpl. rewrite IH. reflexivity.
Qed.

Lemma chat_messages_none (evs : list event) :
  Forall (fun ev => is_chat_message ev = false) evs -> chat_messages evs = [].
Proof.
  induction 1 as [|ev evs Hev _ IH]; [reflexivity|].
  unfold chat_messages in *. simpl. rewrite Hev. exact IH.
Qed.

Lemma shown_are_not_backend_calls (l : list turn) :
  Forall (fun ev => backend_call ev = false) (map show_turn l).
Proof. apply Forall_map. apply Forall_true. intros t. reflexivity. Qed.

(** X12. An execution without a question (nothing typed, or an empty text,
    and no click on the voice button) still creates a new temporary
    database, loads the upload into it and renders the last five turns, then
    shows the question widgets and stops: the log is left as it is, and
    neither the model nor the database is called for a question. *)
Theorem X12_run_without_question (w : world) (s : state)
    (db_path sql_script : string) :
  w_groq_api_key w <> "" ->
  w_uploaded_file w = true ->
  setup_ok w db_path sql_script ->
  truthy_opt (w_chat_input w) = false ->
  (use_voice (environ s) = true -> w_button w = false) ->
  main w s
  = (Ok tt,
     State (<["GROQ_API_KEY" := w_groq_api_key w]> (environ s))
       (Some (messages_of s))
       (trace s ++ header_events ++ setup_events db_path sql_script
          ++ map show_turn (slice_from (-5) (messages_of s))
          ++ EvChatInput "Ask a question about your data"
             :: (if use_voice (environ s) then [EvButton "🎙 Speak"] else []))).
Proof.
  intros Hkey Hfile Hok Hidle Hclick. unfold main.
  rewrite script_ready by (try apply truthy_true; assumption).
  rewrite (upload_block_after_setup w _ (ready w s) db_path sql_script
             (messages_of s) Hok eq_refl).
  destruct (use_voice (environ s));
    [pose proof (Hclick eq_refl) as Hb | clear Hclick];
    destruct (w_chat_input w) as [q|] eqn:Hc; simpl in Hidle;
    cbv beta iota zeta delta [try_except question_input chat_input voice_column
      handle_question emit mbind M_bind bind mret M_ret ret
      environ session_messages trace ready];
    rewrite ?Hb; cbv beta iota; rewrite ?Hc; cbv beta iota;
    rewrite ?Hidle; cbv beta iota;
    rewrite <- !app_assoc; reflexivity.
Qed.

Lemma X12_run_without_question_witness :
  main w_idle s_keyed
  = (Ok tt,
     State (<["GROQ_API_KEY" := "gsk_key"]> {[ "GROQ_API_KEY" := "gsk_old" ]})
       (Some seven_turns)
       (header_events
          ++ setup_events "/tmp/tmpa1.db" "CREATE TABLE users(id, name);"
          ++ map (EvChatMessage "user") ["3"; "4"; "5"; "6"; "7"]
          ++ [EvChatInput "Ask a question about your data"; EvButton "🎙 Speak"])).
Proof.
  apply (X12_run_without_question w_idle s_keyed "/tmp/tmpa1.db"
           "CREATE TABLE users(id, name);").
  - discriminate.
  - reflexivity.
  - repeat split.
  - reflexivity.
  - intros _. reflexivity.
Defined.

(** X13. An exception that escapes [get_voice_input] (no microphone, a
    missing speech library, a recognition error of a class it does not
    handle) is caught by the handler of the upload: the execution returns
    normally and reports the failure as a failure to process the SQL file,
    with the text of the exception; the log is left as it is, so a question
    typed in the same execution is dropped, and neither the model nor the
    database is called. *)
Theorem X13_voice_failure_reported_as_upload_failure (w : world) (s : state)
    (db_path sql_script : string) (e : exn) :
  w_groq_api_key w <> "" ->
  w_uploaded_file w = true ->
  setup_ok w db_path sql_script ->
  use_voice (environ s) = true ->
  w_button w = true ->
  (get_voice_input w true s).1 = Raise e ->
  (main w s).1 = Ok tt /\
  session_messages (main w s).2 = Some (messages_of s) /\
  exists evs,
    trace (main w s).2
      = trace s ++ evs
          ++ [EvError ("❌ Failed to process SQL file: " +:+ exn_text e)] /\
    Forall (fun ev => backend_call ev = false) evs.
Proof.
  intros Hkey Hfile Hok Huv Hb Hraise. unfold main. rewrite Huv.
  rewrite script_ready by (try apply truthy_true; assumption).
  rewrite (upload_block_after_setup w _ (ready w s) db_path sql_script
             (messages_of s) Hok eq_refl).
  match goal with
  | |- context [try_except _ _ ?s2] =>
      destruct (question_input_effect w true s2) as (evs & Hq & Hev);
      rewrite (question_input_voice_raises w s s2 e Hb Hraise) in Hq;
      rewrite (try_raise _ _ _ _ _ (bind_raise _ _ _ _ _ Hq))
  end.
  cbv beta iota delta [emit setup_report fst snd environ session_messages
    trace ready].
  split; [reflexivity|]. split; [reflexivity|].
  exists (header_events ++ setup_events db_path sql_script
            ++ map show_turn (slice_from (-5) (messages_of s)) ++ evs).
  split.
  - rewrite <- !app_assoc. reflexivity.
  - repeat (apply Forall_app; split).
    + repeat constructor.
    + repeat constructor.
    + apply shown_are_not_backend_calls.
    + eapply Forall_impl; [exact Hev|]. intros ev [H _]. exact H.
Qed.

Lemma X13_voice_failure_reported_as_upload_failure_witness :
  (main w_no_mic s_fresh).1 = Ok tt /\
  session_messages (main w_no_mic s_fresh).2 = Some (messages_of s_fresh) /\
  exists evs,
    trace (main w_no_mic s_fresh).2
      = trace s_fresh ++ evs
          ++ [EvError ("❌ Failed to process SQL file: "
                       +:+ "No Default Input Device Available")] /\
    Forall (fun ev => backend_call ev = false) evs.
Proof.
  apply (X13_voice_failure_reported_as_upload_failure w_no_mic s_fresh
           "/tmp/tmpa1.db" "CREATE TABLE users(id, name);"
           (Exn OtherException "No Default Input Device Available")).
  - discriminate.
  - reflexivity.
  - repeat split.
  - reflexivity.
  - reflexivity.
  - reflexivity.
Defined.

(** ** The microphone *)

Lemma grows_voice_column_unclicked Pt (Pe : event -> Prop) (w : world)
    (uv : bool) (typed : option string) :
  w_button w = false ->
  (forall label, Pe (EvButton label)) ->
  grows Pt Pe (voice_column w uv typed).
Proof.
  intros Hb Hbutton. unfold voice_column. rewrite Hb. grows_auto.
Qed.

(** X14. The microphone is used only after a click: in an execution where
    the voice button is not clicked, with voice on or off and whatever else
    happens, the speech-recognition library is not loaded, the microphone is
    not opened and the recognition service is not called. *)
Theorem X14_no_listening_without_click (w : world) (s : state) :
  w_button w = false ->
  exists evs,
    trace (main w s).2 = trace s ++ evs /\
    Forall (fun ev => listening_event ev = false) evs.
Proof.
  intros Hb. unfold main. set (uv := use_voice (environ s)).
  assert (grows well_formed (fun ev => listening_event ev = false) (script w uv))
    as Hg.
  { pose proof (fun typed =>
        grows_voice_column_unclicked well_formed
          (fun ev => listening_event ev = false) w uv typed Hb
          (fun _ => eq_refl)) as Hvc.
    unfold script, page_header, upload_block, setup, render_history,
      question_input, chat_input, handle_question, per_question, speak_text.
    cbv zeta.
    grows_auto; try (apply grows_append_message; unfold well_formed; simpl; auto). }
  destruct (Hg s) as (_ & evs & _ & _ & Ht & Hev & _).
  exists evs. split; assumption.
Qed.

Lemma X14_no_listening_without_click_witness :
  exists evs,
    trace (main w_fine s_fresh).2 = trace s_fresh ++ evs /\
    Forall (fun ev => listening_event ev = false) evs.
Proof. exact (X14_no_listening_without_click w_fine s_fresh eq_refl). Defined.

(** ** A question from input to log *)

(** X15. The history is rendered before the question of the execution is
    logged.  When the database loads and the question widgets give a
    non-empty question [q] (typed, or spoken and recognised), the log gains
    the user turn for [q] followed by the answer turns, after the turns it
    already held; and the chat bubbles shown by the execution are, in order,
    the last five turns of the log as it was before the question, then the
    new turns. *)
Theorem X15_question_logged_after_history (w : world) (s : state)
    (db_path sql_script q : string) :
  w_groq_api_key w <> "" ->
  w_uploaded_file w = true ->
  setup_ok w db_path sql_script ->
  (question_input w (use_voice (environ s)) s).1 = Ok (Some q) ->
  q <> "" ->
  exists tail evs,
    session_messages (main w s).2
      = Some (messages_of s ++ Turn "user" q :: tail) /\
    answer_turns tail /\
    trace (main w s).2 = trace s ++ evs /\
    chat_messages evs
      = map show_turn (slice_from (-5) (messages_of s) ++ Turn "user" q :: tail).
Proof.
  intros Hkey Hfile Hok Hq Hne. unfold main.
  set (uv := use_voice (environ s)) in *.
  rewrite script_ready by (try apply truthy_true; assumption).
  rewrite (upload_block_after_setup w _ (ready w s) db_path sql_script
             (messages_of s) Hok eq_refl).
  match goal with
  | |- context [try_except _ _ ?s2] =>
      destruct (question_input_effect w uv s2) as (evs1 & Hrun1 & Hev1);
      rewrite (question_input_result_indep w uv s2 s), Hq in Hrun1
  end.
  match type of Hrun1 with
  | _ = (_, ?s3) =>
      destruct (per_question_total w uv q s3 (messages_of s) eq_refl)
        as (tail & evs2 & Hrun2 & Ha & Hc)
  end.
  erewrite try_ok; cycle 1.
  { erewrite bind_ok by exact Hrun1.
    unfold handle_question. rewrite (truthy_true q Hne). exact Hrun2. }
  exists tail.
  exists (header_events ++ setup_events db_path sql_script
            ++ map show_turn (slice_from (-5) (messages_of s))
            ++ evs1 ++ EvChatMessage "user" q :: evs2).
  cbv beta iota delta [fst snd environ session_messages trace ready].
  split; [reflexivity|]. split; [exact Ha|]. split.
  - rewrite <- !app_assoc. reflexivity.
  - rewrite !chat_messages_app, chat_messages_shown.
    rewrite (chat_messages_none evs1)
      by (eapply Forall_impl; [exact Hev1|]; intros ev [_ H]; exact H).
    change (chat_messages (EvChatMessage "user" q :: evs2))
      with (EvChatMessage "user" q :: chat_messages evs2).
    rewrite Hc, map_app. reflexivity.
Qed.

Lemma X15_question_logged_after_history_witness :
  exists tail evs,
    session_messages (main w_spoken s_fresh).2
      = Some (messages_of s_fresh ++ Turn "user" "list the users" :: tail) /\
    answer_turns tail /\
    trace (main w_spoken s_fresh).2 = trace s_fresh ++ evs /\
    chat_messages evs
      = map show_turn (slice_from (-5) (messages_of s_fresh)
                         ++ Turn "user" "list the users" :: tail).
Proof.
  apply (X15_question_logged_after_history w_spoken s_fresh "/tmp/tmpa1.db"
           "CREATE TABLE users(id, name);" "list the users").
  - discriminate.
  - reflexivity.
  - repeat split.
  - reflexivity.
  - discriminate.
Defined.
